(** * Deep research workflow: a shallow embedding of the orchestration code

    The development follows the Python sources file by file:
    - [models.py]            the dataclasses and [FinalResearchReport.to_dict];
    - [gemini_client.py]     the three model-backed calls and [batch_summarize];
    - [exa_client.py]        the search wrapper;
    - [research_workflow.py] the iteration engine and the controller loop.

    Values decoded from model replies are dynamically typed in the source
    ([Dict[str, Any]]), so they are kept as JSON values here and the Python
    operations applied to them ([.get], truthiness, [>=], [len], item
    assignment) are written out with the exceptions they raise.

    The collaborators (the Gemini model, the Exa search service, the clock
    and the JSON decoder of the Python library) are parameters.  Every call
    to a collaborator is recorded in a trace, and a collaborator's reply may
    depend on the request and on the number of calls made before it. *)

From Stdlib Require Import List ZArith String Ascii Bool Lia QArith.
Import ListNotations.

Set Warnings "-register-all".
Open Scope string_scope.
Open Scope Z_scope.

(* ================================================================== *)
(** ** Python values *)

(** What [json.loads] can return.  A finite float is kept as the rational
    it denotes (Python compares an int with a float by value); the
    non-finite floats are left out.  A dict keeps its items in insertion
    order. *)
Inductive json : Type :=
| JNull
| JBool (b : bool)
| JInt (z : Z)
| JFloat (q : Q)
| JStr (s : string)
| JList (l : list json)
| JDict (d : list (string * json)).

(** The exceptions the modelled code can meet.  [ModelError] stands for
    whatever the Gemini SDK raises; [OutOfFuel] is not a Python exception:
    it marks a loop of the embedding that was given too little fuel, and
    [research] is shown never to produce it. *)
Inductive exn : Type :=
| JSONDecodeError
| KeyError
| TypeError
| AttributeError
| ValueError
| RecursionError
| ModelError
| OutOfFuel.

(** The ways [json.loads] rejects a text: it is not JSON
    ([JSONDecodeError]), it is nested deeper than the interpreter's
    recursion limit ([RecursionError]), or it holds an integer with more
    digits than the interpreter converts (a plain [ValueError]). *)
Inductive decode_failure : Type :=
| NotJSON
| NestedTooDeep
| IntegerTooLong.

Definition exn_of_failure (f : decode_failure) : exn :=
  match f with
  | NotJSON => JSONDecodeError
  | NestedTooDeep => RecursionError
  | IntegerTooLong => ValueError
  end.

Inductive result (A : Type) : Type :=
| Ok (a : A)
| Raise (e : exn).
Arguments Ok {A} a.
Arguments Raise {A} e.

Module Py.

(** [len(s)] for a string. *)
Definition len (s : string) : Z := Z.of_nat (String.length s).

(** [s[:n]]: the first [n] characters, or all but the last [-n] when [n]
    is negative. *)
Definition slice_to (n : Z) (s : string) : string :=
  if 0 <=? n then substring 0 (Z.to_nat n) s
  else substring 0 (Z.to_nat (len s + n)) s.

(** [bool(v)]. *)
Definition truthy (v : json) : bool :=
  match v with
  | JNull => false
  | JBool b => b
  | JInt z => negb (z =? 0)
  | JFloat q => negb (Qeq_bool q 0)
  | JStr s => negb (String.eqb s "")
  | JList l => match l with [] => false | _ :: _ => true end
  | JDict d => match d with [] => false | _ :: _ => true end
  end.

(** Lookup in a dict's items. *)
Fixpoint lookup (k : string) (d : list (string * json)) : option json :=
  match d with
  | [] => None
  | (k', v) :: d' => if String.eqb k k' then Some v else lookup k d'
  end.

(** [v.get(k, default)]: only a dict has the method. *)
Definition get (v : json) (k : string) (default : json) : result json :=
  match v with
  | JDict d => Ok (match lookup k d with Some x => x | None => default end)
  | _ => Raise AttributeError
  end.

(** [d[k] = x] on a dict's items: the value is replaced where the key
    already is, a new key goes last. *)
Fixpoint set_item (k : string) (x : json) (d : list (string * json))
  : list (string * json) :=
  match d with
  | [] => [(k, x)]
  | (k', v) :: d' =>
      if String.eqb k k' then (k', x) :: d' else (k', v) :: set_item k x d'
  end.

(** [v[k] = x] with a string key: a [TypeError] on anything but a dict. *)
Definition setitem (v : json) (k : string) (x : json) : result json :=
  match v with
  | JDict d => Ok (JDict (set_item k x d))
  | _ => Raise TypeError
  end.

(** [v >= n] for an int [n]: defined on numbers ([bool] is a subclass of
    [int]), a [TypeError] on everything else. *)
Definition ge_int (v : json) (n : Z) : result bool :=
  match v with
  | JBool b => Ok ((if b then 1 else 0) >=? n)
  | JInt z => Ok (z >=? n)
  | JFloat q => Ok (Qle_bool (inject_Z n) q)
  | _ => Raise TypeError
  end.

(** [len(v)] for a decoded value. *)
Definition len_json (v : json) : result Z :=
  match v with
  | JStr s => Ok (len s)
  | JList l => Ok (Z.of_nat (List.length l))
  | JDict d => Ok (Z.of_nat (List.length d))
  | _ => Raise TypeError
  end.

(** [for x in v]: the elements of a list, the characters of a string,
    the keys of a dict. *)
Definition elements (v : json) : result (list json) :=
  match v with
  | JStr s => Ok (map (fun c => JStr (String c EmptyString))
                      (list_ascii_of_string s))
  | JList l => Ok l
  | JDict d => Ok (map (fun kv => JStr (fst kv)) d)
  | _ => Raise TypeError
  end.

(** Whether a decoded value can be a dict key. *)
Definition hashable (v : json) : bool :=
  match v with
  | JList _ | JDict _ => false
  | _ => true
  end.

Definition as_number (v : json) : option Q :=
  match v with
  | JBool b => Some (inject_Z (if b then 1 else 0))
  | JInt z => Some (inject_Z z)
  | JFloat q => Some q
  | _ => None
  end.

(** Equality of two hashable values as dict keys: numbers by value
    ([True == 1 == 1.0]), strings by content. *)
Definition key_eqb (a b : json) : bool :=
  match as_number a, as_number b with
  | Some x, Some y => Qeq_bool x y
  | None, None =>
      match a, b with
      | JNull, JNull => true
      | JStr s, JStr t => String.eqb s t
      | _, _ => false
      end
  | _, _ => false
  end.

End Py.

(* ================================================================== *)
(** ** models.py *)

Record SearchResult : Type := {
  sr_url : string;
  sr_title : string;
  sr_content : string;
  sr_published_date : option string;
  sr_score : option Q
}.

(** The fields filled from a model reply hold whatever the reply held. *)
Record SummaryResult : Type := {
  url : json;
  relevance_score : json;
  is_relevant : json;
  summary : json;
  key_insights : json;
  search_query : string
}.

Record ResearchIteration : Type := {
  iteration_number : Z;
  queries : json;
  search_results : list SearchResult;
  summaries : list SummaryResult;
  synthesis_result : json
}.

Record FinalResearchReport : Type := {
  original_query : string;
  iterations : list ResearchIteration;
  final_synthesis : json;
  total_sources : Z;
  confidence_score : json
}.

Definition opt_str (o : option string) : json :=
  match o with Some s => JStr s | None => JNull end.

Definition opt_float (o : option Q) : json :=
  match o with Some q => JFloat q | None => JNull end.

(** [sr.content[:500] + "..." if len(sr.content) > 500 else sr.content] *)
Definition content_preview (content : string) : string :=
  if Py.len content >? 500 then Py.slice_to 500 content ++ "..."
  else content.

Definition search_result_to_dict (sr : SearchResult) : json :=
  JDict [ ("url", JStr (sr_url sr));
          ("title", JStr (sr_title sr));
          ("content", JStr (content_preview (sr_content sr)));
          ("published_date", opt_str (sr_published_date sr));
          ("score", opt_float (sr_score sr)) ].

Definition summary_to_dict (s : SummaryResult) : json :=
  JDict [ ("url", url s);
          ("relevance_score", relevance_score s);
          ("is_relevant", is_relevant s);
          ("summary", summary s);
          ("key_insights", key_insights s);
          ("search_query", JStr (search_query s)) ].

Definition iteration_to_dict (it : ResearchIteration) : json :=
  JDict [ ("iteration_number", JInt (iteration_number it));
          ("queries", queries it);
          ("search_results", JList (map search_result_to_dict (search_results it)));
          ("summaries", JList (map summary_to_dict (summaries it)));
          ("synthesis_result", synthesis_result it) ].

(** [FinalResearchReport.to_dict] *)
Definition to_dict (r : FinalResearchReport) : json :=
  JDict [ ("original_query", JStr (original_query r));
          ("iterations", JList (map iteration_to_dict (iterations r)));
          ("final_synthesis", final_synthesis r);
          ("total_sources", JInt (total_sources r));
          ("confidence_score", confidence_score r) ].

(* ================================================================== *)
(** ** Collaborators, configuration and the monad of the workflow *)

(** A prompt is a template of [prompts/] applied to its arguments.  The
    template files are not part of the sources, so a prompt is kept as the
    name of the template with the arguments handed to [str.format], and
    formatting is taken to succeed; the synthesis prompt receives
    [json.dumps(summaries)], kept as the list it encodes. *)
Inductive prompt : Type :=
| QueryGenerationPrompt (original_query : string)
| SummarizerPrompt (original_query : string) (search_query : json)
                   (url content : string)
| SynthesisPrompt (original_query : string) (summaries : list json).

(** A request sent to a collaborator. *)
Inductive request : Type :=
| GenerateContent (p : prompt)
| SearchAndContents (query : json).

Definition trace := list request.

(** The outside world.  [None] is a call that raises.  The [nat] is the
    number of collaborator calls made so far, so that the same request may
    be answered differently on each call.  [search_and_contents] stands
    for the body of the [try] of [search_single_query]: the Exa call and
    the conversion of its hits into [SearchResult] records.  [json_loads]
    is [None] on a text that [json.loads] rejects, and [json_failure] then
    tells how it rejects it. *)
Record World : Type := {
  json_loads : string -> option json;
  json_failure : string -> decode_failure;
  generate_content : nat -> prompt -> option string;
  search_and_contents : nat -> json -> option (list SearchResult);
  now_isoformat : nat -> string
}.

(** config.py *)
Record Config : Type := {
  google_api_key : string;
  exa_api_key : string;
  max_urls_per_query : Z;
  min_relevance_score : Z;
  max_research_iterations : Z;
  content_snippet_length : Z
}.

(** A computation reads the trace of the calls made so far, extends it,
    and returns a value or raises. *)
Definition M (A : Type) : Type := trace -> result A * trace.

Definition ret {A} (a : A) : M A := fun tr => (Ok a, tr).

Definition raise {A} (e : exn) : M A := fun tr => (Raise e, tr).

Definition bind {A B} (m : M A) (k : A -> M B) : M B :=
  fun tr =>
    match m tr with
    | (Ok a, tr') => k a tr'
    | (Raise e, tr') => (Raise e, tr')
    end.

Definition lift {A} (r : result A) : M A := fun tr => (r, tr).

(** [try: body  except (classes): handler] *)
Definition try_except {A} (body : M A) (caught : exn -> bool)
           (handler : M A) : M A :=
  fun tr =>
    match body tr with
    | (Ok a, tr') => (Ok a, tr')
    | (Raise e, tr') => if caught e then handler tr' else (Raise e, tr')
    end.

(** One task of [asyncio.gather(..., return_exceptions=True)]: the
    exception, if any, becomes the task's result. *)
Definition attempt {A} (m : M A) : M (result A) :=
  fun tr => let (r, tr') := m tr in (Ok r, tr').

Declare Scope workflow_scope.
Delimit Scope workflow_scope with wf.
Notation "x <- m ;; k" := (bind m (fun x => k))
  (at level 61, m at next level, right associativity) : workflow_scope.
Definition rbind {A B} (r : result A) (k : A -> result B) : result B :=
  match r with
  | Ok a => k a
  | Raise e => Raise e
  end.

Fixpoint mapM {A B} (f : A -> M B) (l : list A) : M (list B) :=
  match l with
  | [] => ret []
  | x :: l' => (y <- f x ;; ys <- mapM f l' ;; ret (y :: ys))%wf
  end.

Section Workflow.

Variable w : World.
Variable config : Config.

Local Open Scope workflow_scope.

(* ---------------------------------------------------------------- *)
(** *** gemini_client.py *)

(** [_call_model]: the [except Exception] clause prints and re-raises. *)
Definition _call_model (p : prompt) : M string :=
  fun tr =>
    match generate_content w (List.length tr) p with
    | Some text => (Ok text, (tr ++ [GenerateContent p])%list)
    | None => (Raise ModelError, (tr ++ [GenerateContent p])%list)
    end.

Definition loads (s : string) : M json :=
  match json_loads w s with
  | Some v => ret v
  | None => raise (exn_of_failure (json_failure w s))
  end.

(** [except (json.JSONDecodeError, KeyError)]: a [RecursionError] and a
    plain [ValueError] are not of these classes. *)
Definition decode_errors (e : exn) : bool :=
  match e with
  | JSONDecodeError | KeyError => true
  | _ => false
  end.

Definition fallback_queries (original_query : string) : json :=
  JList [ JStr original_query;
          JStr ("comprehensive analysis of " ++ original_query);
          JStr ("latest research on " ++ original_query) ].

Definition generate_queries (original_query : string) : M json :=
  try_except
    (response <- _call_model (QueryGenerationPrompt original_query) ;;
     result <- loads response ;;
     lift (Py.get result "queries" (JList [])))
    decode_errors
    (ret (fallback_queries original_query)).

(** Returns the decoded reply, or [None] (here [JNull]) when the reply
    does not decode. *)
Definition summarize_content (original_query : string) (search_query : json)
           (url content : string) : M json :=
  let truncated_content :=
    Py.slice_to (content_snippet_length config) content in
  try_except
    (response <- _call_model
                   (SummarizerPrompt original_query search_query url
                                     truncated_content) ;;
     loads response)
    decode_errors
    (ret JNull).

Definition degraded_synthesis : json :=
  JDict [ ("executive_summary", JStr "Error in synthesis");
          ("key_findings", JList []);
          ("perspectives", JList []);
          ("implications", JStr "Unable to synthesize due to parsing error");
          ("information_gaps", JList [JStr "Synthesis failed"]);
          ("confidence_score", JInt 1);
          ("needs_more_research", JBool true) ].

Definition synthesize_research (original_query : string)
           (summaries : list json) : M json :=
  try_except
    (response <- _call_model (SynthesisPrompt original_query summaries) ;;
     loads response)
    decode_errors
    (ret degraded_synthesis).

Definition is_dict (v : json) : bool :=
  match v with JDict _ => true | _ => false end.

(** [isinstance(result, dict) and result is not None] on a task result. *)
Definition valid_result (r : result json) : option json :=
  match r with
  | Ok v => if is_dict v then Some v else None
  | Raise _ => None
  end.

Fixpoint valid_results (rs : list (result json)) : list json :=
  match rs with
  | [] => []
  | r :: rs' =>
      match valid_result r with
      | Some v => v :: valid_results rs'
      | None => valid_results rs'
      end
  end.

Definition batch_summarize (original_query : string)
           (search_results : list (json * string * string))
  : M (list json) :=
  results <- mapM (fun t : json * string * string =>
                     let '(search_query, url, content) := t in
                     attempt (summarize_content original_query search_query
                                                url content))
                  search_results ;;
  ret (valid_results results).

(* ---------------------------------------------------------------- *)
(** *** exa_client.py *)

(** [search_single_query]: every exception of the [try] is caught and
    turned into the empty list. *)
Definition search_single_query (query : json) : M (list SearchResult) :=
  fun tr =>
    match search_and_contents w (List.length tr) query with
    | Some results => (Ok results, (tr ++ [SearchAndContents query])%list)
    | None => (Ok [], (tr ++ [SearchAndContents query])%list)
    end.

(** The dict from query to hits, in insertion order. *)
Definition search_dict := list (json * list SearchResult).

Fixpoint search_dict_set (k : json) (v : list SearchResult)
         (d : search_dict) : search_dict :=
  match d with
  | [] => [(k, v)]
  | (k', v') :: d' =>
      if Py.key_eqb k k' then (k', v) :: d'
      else (k', v') :: search_dict_set k v d'
  end.

(** The loop [for i, result in enumerate(results)] of
    [search_multiple_queries]: [queries[i]] is the [i]-th element for a
    list or a string and a [KeyError] for a dict; the assignment
    [search_results[query] = result] needs a hashable key. *)
Fixpoint collect_search_results (queries : json)
         (qrs : list (json * list SearchResult)) (d : search_dict)
  : result search_dict :=
  match qrs with
  | [] => Ok d
  | (query, res) :: qrs' =>
      if is_dict queries then Raise KeyError
      else if Py.hashable query
           then collect_search_results queries qrs'
                                       (search_dict_set query res d)
           else Raise TypeError
  end.

Definition search_multiple_queries (queries : json) : M search_dict :=
  if negb (Py.truthy queries) then ret []
  else
    _ <- lift (Py.len_json queries) ;;
    qs <- lift (Py.elements queries) ;;
    results <- mapM search_single_query qs ;;
    lift (collect_search_results queries (combine qs results) []).

Definition flatten_search_results (d : search_dict)
  : list (json * string * string) :=
  flat_map (fun qr : json * list SearchResult =>
              map (fun r => (fst qr, sr_url r, sr_content r)) (snd qr))
           d.

(* ---------------------------------------------------------------- *)
(** *** research_workflow.py *)

(** The loop of [_execute_iteration] that turns the replies into
    [SummaryResult] objects. *)
Fixpoint relevant_summaries (summary_responses : list json)
  : result (list SummaryResult) :=
  match summary_responses with
  | [] => Ok []
  | response :: rest =>
      rbind (if Py.truthy response
             then rbind (Py.get response "is_relevant" (JBool false))
                        (fun flag => Ok (Py.truthy flag))
             else Ok false)
        (fun keep =>
           if keep then
             rbind (Py.get response "url" (JStr "")) (fun u =>
             rbind (Py.get response "relevance_score" (JInt 0)) (fun sc =>
             rbind (Py.get response "is_relevant" (JBool false)) (fun rel =>
             rbind (Py.get response "summary" (JStr "")) (fun sm =>
             rbind (Py.get response "key_insights" (JList [])) (fun ki =>
             rbind (relevant_summaries rest) (fun tl =>
             Ok ({| url := u; relevance_score := sc; is_relevant := rel;
                    summary := sm; key_insights := ki;
                    search_query := "" |} :: tl)))))))
           else relevant_summaries rest)
  end.

Definition _execute_iteration (original_query : string)
           (iteration_number : Z) : M ResearchIteration :=
  queries <- generate_queries original_query ;;
  _ <- lift (Py.len_json queries) ;;
  search_results_dict <- search_multiple_queries queries ;;
  let all_search_results :=
    flat_map (fun qr : json * list SearchResult => snd qr)
             search_results_dict in
  let flattened_results := flatten_search_results search_results_dict in
  summary_responses <- batch_summarize original_query flattened_results ;;
  summaries <- lift (relevant_summaries summary_responses) ;;
  synthesis_result <- synthesize_research original_query summary_responses ;;
  ret {| iteration_number := iteration_number;
         queries := queries;
         search_results := all_search_results;
         summaries := summaries;
         synthesis_result := synthesis_result |}.

(** One entry of [all_summaries] in [_create_final_synthesis]. *)
Definition final_summary_entry (it : ResearchIteration)
           (s : SummaryResult) : json :=
  JDict [ ("url", url s);
          ("relevance_score", relevance_score s);
          ("summary", summary s);
          ("key_insights", key_insights s);
          ("iteration", JInt (iteration_number it)) ].

Definition all_summaries (its : list ResearchIteration) : list json :=
  flat_map (fun it => map (final_summary_entry it) (summaries it)) its.

Definition _create_final_synthesis (self_iterations : list ResearchIteration)
           (original_query : string) : M json :=
  let summaries := all_summaries self_iterations in
  final_synthesis <- synthesize_research original_query summaries ;;
  fs1 <- lift (Py.setitem final_synthesis "total_iterations"
                 (JInt (Z.of_nat (List.length self_iterations)))) ;;
  fs2 <- lift (Py.setitem fs1 "total_sources"
                 (JInt (Z.of_nat (List.length summaries)))) ;;
  fun tr =>
    (Py.setitem fs2 "research_timestamp"
                (JStr (now_isoformat w (List.length tr))), tr).

(** The [while] loop of [research].  [self_iterations] is the list held
    by the workflow object; the result is the final [iteration_count]
    with the list as the loop leaves it. *)
Fixpoint research_loop (fuel : nat) (original_query : string)
         (iteration_count : Z) (self_iterations : list ResearchIteration)
  : M (Z * list ResearchIteration) :=
  match fuel with
  | O => raise OutOfFuel
  | S fuel' =>
      if iteration_count <? max_research_iterations config then
        let iteration_count := iteration_count + 1 in
        iteration_result <- _execute_iteration original_query
                                               iteration_count ;;
        let self_iterations := (self_iterations ++ [iteration_result])%list in
        needs_more <- lift (Py.get (synthesis_result iteration_result)
                                   "needs_more_research" (JBool false)) ;;
        confidence <- lift (Py.get (synthesis_result iteration_result)
                                   "confidence_score" (JInt 0)) ;;
        high <- lift (Py.ge_int confidence 7) ;;
        if high && negb (Py.truthy needs_more)
        then ret (iteration_count, self_iterations)
        else if iteration_count >=? max_research_iterations config
             then ret (iteration_count, self_iterations)
             else research_loop fuel' original_query iteration_count
                                self_iterations
      else ret (iteration_count, self_iterations)
  end.

Definition sum_sources (its : list ResearchIteration) : Z :=
  fold_left (fun acc it => acc + Z.of_nat (List.length (search_results it)))
            its 0.

(** [research]: takes the workflow's [self.iterations] and returns the
    report together with the list the workflow holds afterwards (the
    report's [iterations] is that same list). *)
Definition research (self_iterations : list ResearchIteration)
           (original_query : string)
  : M (FinalResearchReport * list ResearchIteration) :=
  st <- research_loop (S (Z.to_nat (max_research_iterations config)))
                      original_query 0 self_iterations ;;
  let self_iterations := snd st in
  final_synthesis <- _create_final_synthesis self_iterations
                                             original_query ;;
  let total_sources := sum_sources self_iterations in
  confidence <- lift (Py.get final_synthesis "confidence_score" (JInt 0)) ;;
  ret ({| original_query := original_query;
          iterations := self_iterations;
          final_synthesis := final_synthesis;
          total_sources := total_sources;
          confidence_score := confidence |},
       self_iterations).

(** [DeepResearchWorkflow.__init__]: both clients refuse an empty key;
    the history starts empty. *)
Definition init_workflow : result (list ResearchIteration) :=
  if String.eqb (google_api_key config) "" then Raise ValueError
  else if String.eqb (exa_api_key config) "" then Raise ValueError
  else Ok [].

(** [run_research]: a fresh workflow, then [research]. *)
Definition run_research (query : string)
  : M (FinalResearchReport * list ResearchIteration) :=
  self_iterations <- lift init_workflow ;;
  research self_iterations query.

End Workflow.

(* ================================================================== *)
(** ** The specification's stop condition *)

(** The stop condition in the words of the specification, checked after
    the iteration numbered [iteration_count]: the confidence score of the
    iteration's synthesis is at least the threshold and its
    needs-more-research flag is false, or the iteration count has reached
    the maximum.  The score and the flag are read from the synthesis as
    the controller reads them. *)
Definition spec_stop_condition (threshold max_iterations iteration_count : Z)
           (synthesis : json) : result bool :=
  rbind (Py.get synthesis "needs_more_research" (JBool false)) (fun needs_more =>
  rbind (Py.get synthesis "confidence_score" (JInt 0)) (fun confidence =>
  rbind (Py.ge_int confidence threshold) (fun high =>
  Ok ((high && negb (Py.truthy needs_more))
      || (iteration_count >=? max_iterations))))).

(** The sum of the per-iteration hit counts. *)
Definition hit_count_sum (its : list ResearchIteration) : Z :=
  fold_right Z.add 0
             (map (fun it => Z.of_nat (List.length (search_results it))) its).

(** A property of the iterations of a list together with their positions,
    counted from [first]. *)
Fixpoint each_numbered (P : Z -> ResearchIteration -> Prop) (first : Z)
         (its : list ResearchIteration) : Prop :=
  match its with
  | [] => True
  | it :: rest => P first it /\ each_numbered P (first + 1) rest
  end.

(** The iterations of a list carry the numbers [first], [first + 1], ... *)
Definition numbered_from (first : Z) (its : list ResearchIteration) : Prop :=
  each_numbered (fun k it => iteration_number it = k) first its.

(** What the controller loop guarantees of the iteration it ran as number
    [k] when it left with [iteration_count = n]: the iteration is a result
    of the engine called with that number, and the specification's stop
    condition, at the threshold 7 of the source, held after it exactly when
    it was the last. *)
Definition loop_iteration (w : World) (config : Config) (q : string) (n : Z)
           (k : Z) (it : ResearchIteration) : Prop :=
  (exists tr tr', _execute_iteration w config q k tr = (Ok it, tr'))
  /\ spec_stop_condition 7 (max_research_iterations config) k
                         (synthesis_result it)
     = Ok (k =? n).

(** The [SummaryResult] built from a reply that passed the filter. *)
Definition summary_of_response (d : list (string * json)) : SummaryResult :=
  let field k default :=
    match Py.lookup k d with Some x => x | None => default end in
  {| url := field "url" (JStr "");
     relevance_score := field "relevance_score" (JInt 0);
     is_relevant := field "is_relevant" (JBool false);
     summary := field "summary" (JStr "");
     key_insights := field "key_insights" (JList []);
     search_query := "" |}.

(** The relevance test of the filter on a decoded reply. *)
Definition response_relevant (d : list (string * json)) : bool :=
  match d with
  | [] => false
  | _ :: _ =>
      Py.truthy (match Py.lookup "is_relevant" d with
                 | Some x => x
                 | None => JBool false
                 end)
  end.

(** The items of the dicts of a list of decoded values. *)
Fixpoint dicts_of (vs : list json) : list (list (string * json)) :=
  match vs with
  | [] => []
  | JDict d :: vs' => d :: dicts_of vs'
  | _ :: vs' => dicts_of vs'
  end.

(* ================================================================== *)
(** ** A scripted world for the concrete runs *)

(** The [n]-th collaborator call is answered by the [n]-th entry of the
    script: a model call by its text, a search call by its hits; an entry
    of the other kind, or none, makes the call raise.  Replies are decoded
    with a table. *)
Inductive scripted_reply : Type :=
| Reply (text : string)
| Hits (results : list SearchResult)
| Fails.

Fixpoint decode_table (table : list (string * json)) (s : string)
  : option json :=
  match table with
  | [] => None
  | (t, v) :: table' => if String.eqb s t then Some v else decode_table table' s
  end.

(** How the decoder rejects the texts of the scripts: the two marked
    texts stand for a reply nested too deep and for a reply with an
    over-long integer; any other text outside the table is not JSON. *)
Definition scripted_failure (s : string) : decode_failure :=
  if String.eqb s "<<nested too deep>>" then NestedTooDeep
  else if String.eqb s "<<integer too long>>" then IntegerTooLong
  else NotJSON.

Definition scripted_world (script : list scripted_reply)
           (table : list (string * json)) : World :=
  {| json_loads := decode_table table;
     json_failure := scripted_failure;
     generate_content := fun n _ =>
       match nth n script Fails with Reply text => Some text | _ => None end;
     search_and_contents := fun n _ =>
       match nth n script Fails with Hits rs => Some rs | _ => None end;
     now_isoformat := fun _ => "2024-01-01T00:00:00" |}.

Definition demo_config (max_iterations : Z) : Config :=
  {| google_api_key := "g-key";
     exa_api_key := "e-key";
     max_urls_per_query := 20;
     min_relevance_score := 6;
     max_research_iterations := max_iterations;
     content_snippet_length := 2000 |}.

(** A synthesis reply with the given score and flag. *)
Definition synthesis_value (score : Z) (needs_more : bool) : json :=
  JDict [ ("executive_summary", JStr "s");
          ("confidence_score", JInt score);
          ("needs_more_research", JBool needs_more) ].

Definition demo_table : list (string * json) :=
  [ ("queries-a", JDict [("queries", JList [JStr "a"])]);
    ("synthesis-4-more", synthesis_value 4 true);
    ("synthesis-5-more", synthesis_value 5 true);
    ("synthesis-6-done", synthesis_value 6 false);
    ("synthesis-8-done", synthesis_value 8 false);
    ("summary-relevant",
     JDict [("url", JStr "u1"); ("relevance_score", JInt 9);
            ("is_relevant", JBool true); ("summary", JStr "good");
            ("key_insights", JList [JStr "k"])]);
    ("summary-irrelevant",
     JDict [("url", JStr "u2"); ("relevance_score", JInt 2);
            ("is_relevant", JBool false); ("summary", JStr "bad");
            ("key_insights", JList [])]) ].

Definition hit (u c : string) : SearchResult :=
  {| sr_url := u; sr_title := "t"; sr_content := c;
     sr_published_date := None; sr_score := None |}.

(** One iteration without hits: expansion, one search, synthesis. *)
Definition quiet_iteration (synthesis_reply : string) : list scripted_reply :=
  [ Reply "queries-a"; Hits []; Reply synthesis_reply ].

(** Scores [4, 8] with flags [true, false], then the final synthesis. *)
Definition world_4_8 : World :=
  scripted_world (quiet_iteration "synthesis-4-more"
                  ++ quiet_iteration "synthesis-8-done"
                  ++ [Reply "synthesis-8-done"])%list
                 demo_table.

(** Scores [4, 5, 6]: always below the threshold. *)
Definition world_low : World :=
  scripted_world (quiet_iteration "synthesis-4-more"
                  ++ quiet_iteration "synthesis-5-more"
                  ++ quiet_iteration "synthesis-6-done"
                  ++ [Reply "synthesis-6-done"])%list
                 demo_table.

(** The model raises on its first call. *)
Definition world_model_down : World := scripted_world [Fails] demo_table.

(** The expander's reply does not decode; the first fallback query finds
    two hits and the searches for the other two fail; the first hit is
    summarized as relevant and the second as irrelevant; neither the
    iteration's synthesis nor the final one decodes. *)
Definition world_unparseable : World :=
  scripted_world [ Reply "<<not json>>";
                   Hits [hit "u1" "c1"; hit "u2" "c2"]; Fails; Fails;
                   Reply "summary-relevant"; Reply "summary-irrelevant";
                   Reply "<<not json>>";
                   Reply "<<not json>>" ]
                 demo_table.

(** Two queries put to the same workflow object, one iteration each. *)
Definition world_two_queries : World :=
  scripted_world (quiet_iteration "synthesis-8-done"
                  ++ [Reply "synthesis-8-done"]
                  ++ quiet_iteration "synthesis-8-done"
                  ++ [Reply "synthesis-8-done"])%list
                 demo_table.

(** A report with one hit whose content is 600 characters long. *)
Definition long_content : string :=
  string_of_list_ascii (repeat "x"%char 600).

Definition sample_report : FinalResearchReport :=
  {| original_query := "q";
     iterations :=
       [ {| iteration_number := 1;
            queries := JList [JStr "q"];
            search_results := [hit "u1" "short"; hit "u2" long_content];
            summaries := [];
            synthesis_result := synthesis_value 8 false |} ];
     final_synthesis := synthesis_value 8 false;
     total_sources := 2;
     confidence_score := JInt 8 |}.

(* ================================================================== *)
(** ** The rest of the clients, the report file and the environment check *)

(** [ExaClient.get_total_results_count] *)
Definition get_total_results_count (search_results : search_dict) : Z :=
  fold_left (fun total qr => total + Z.of_nat (List.length (snd qr)))
            search_results 0.

(** [search_results.get(key)] on the dict of [search_multiple_queries]. *)
Fixpoint search_dict_get (k : json) (d : search_dict)
  : option (list SearchResult) :=
  match d with
  | [] => None
  | (k', v) :: d' => if Py.key_eqb k k' then Some v else search_dict_get k d'
  end.

(** The request [summarize_content] sends for one flattened hit. *)
Definition summarizer_request (config : Config) (original_query : string)
           (t : json * string * string) : request :=
  GenerateContent
    (SummarizerPrompt original_query (fst (fst t)) (snd (fst t))
                      (Py.slice_to (content_snippet_length config) (snd t))).

(** The steps of [_execute_iteration] before the synthesis have returned:
    the queries, the searches and the batch of summaries, leaving the
    trace [tr3] and the summaries [produced]. *)
Definition reaches_synthesis (w : World) (config : Config) (q : string)
           (tr : trace) (qs : json) (d : search_dict) (produced : list json)
           (tr3 : trace) : Prop :=
  exists tr1 n tr2,
    generate_queries w q tr = (Ok qs, tr1)
    /\ Py.len_json qs = Ok n
    /\ search_multiple_queries w qs tr1 = (Ok d, tr2)
    /\ batch_summarize w config q (flatten_search_results d) tr2
       = (Ok produced, tr3).

(** The record [_execute_iteration] returns for a synthesis result. *)
Definition iteration_record (k : Z) (qs : json) (d : search_dict)
           (produced : list json) (synthesis : json) : ResearchIteration :=
  {| iteration_number := k;
     queries := qs;
     search_results :=
       flat_map (fun qr : json * list SearchResult => snd qr) d;
     summaries :=
       map summary_of_response (filter response_relevant (dicts_of produced));
     synthesis_result := synthesis |}.



Section SaveReport.

(** The character classes of Python's [str.isalnum] and [str.isspace],
    which come with the language. *)
Variable isalnum : ascii -> bool.
Variable isspace : ascii -> bool.

(** [c.isalnum() or c in (' ', '-', '_')] *)
Definition kept_in_filename (c : ascii) : bool :=
  isalnum c || Ascii.eqb c " " || Ascii.eqb c "-" || Ascii.eqb c "_".

(** [s.rstrip()] on the characters of a string. *)
Fixpoint rstrip (s : list ascii) : list ascii :=
  match s with
  | [] => []
  | c :: s' =>
      match rstrip s' with
      | [] => if isspace c then [] else [c]
      | r => c :: r
      end
  end.

(** [s.replace(' ', '_')] *)
Definition spaces_to_underscores (s : list ascii) : list ascii :=
  map (fun c => if Ascii.eqb c " " then "_"%char else c) s.

(** The [safe_query] of [save_report]. *)
Definition safe_query (query : string) : string :=
  Py.slice_to 50
    (string_of_list_ascii
       (spaces_to_underscores
          (rstrip (filter kept_in_filename (list_ascii_of_string query))))).


End SaveReport.

(** The ASCII part of the two character classes. *)
Definition ascii_isalnum (c : ascii) : bool :=
  let n := nat_of_ascii c in
  ((48 <=? n) && (n <=? 57) || (65 <=? n) && (n <=? 90)
   || (97 <=? n) && (n <=? 122))%nat.

Definition ascii_isspace (c : ascii) : bool :=
  let n := nat_of_ascii c in
  ((9 <=? n) && (n <=? 13) || (28 <=? n) && (n <=? 32))%nat.

Definition extra_table : list (string * json) :=
  (demo_table ++
   [ ("no-queries", JDict [("note", JStr "none")]);
     ("queries-a-a", JDict [("queries", JList [JStr "a"; JStr "a"])]);
     ("a-list", JList [JInt 1]);
     ("synthesis-text-score",
      JDict [("confidence_score", JStr "8"); ("needs_more_research", JBool false)]);
     ("synthesis-own-metadata",
      JDict [("confidence_score", JInt 9); ("total_sources", JInt 99);
             ("executive_summary", JStr "s")]) ])%list.

(** The summary a batch keeps for a flattened hit whose request is the
    [n]-th collaborator call: the decoded reply when the call returns and
    the reply decodes to an object, and nothing otherwise. *)
Definition kept_summary (w : World) (config : Config) (q : string) (n : nat)
           (t : json * string * string) : option json :=
  match generate_content w n
          (SummarizerPrompt q (fst (fst t)) (snd (fst t))
                            (Py.slice_to (content_snippet_length config) (snd t)))
  with
  | Some text =>
      match json_loads w text with
      | Some v => if is_dict v then Some v else None
      | None => None
      end
  | None => None
  end.

Fixpoint kept_from (w : World) (config : Config) (q : string) (n : nat)
         (l : list (json * string * string)) : list json :=
  match l with
  | [] => []
  | t :: l' =>
      match kept_summary w config q n t with
      | Some v => v :: kept_from w config q (S n) l'
      | None => kept_from w config q (S n) l'
      end
  end.

(** The controller loop, started on the history [its] and the trace [tr],
    is back at its test after [k] iterations, with the history [its_k] and
    the trace [tr_k]: each of the [k] iterations returned and the stop
    condition was false after it. *)
Inductive loop_reaches (w : World) (config : Config) (q : string)
          (its : list ResearchIteration) (tr : trace)
  : nat -> list ResearchIteration -> trace -> Prop :=
| reaches_start : loop_reaches w config q its tr 0 its tr
| reaches_next (k : nat) (its_k : list ResearchIteration) (tr_k : trace)
               (it : ResearchIteration) (tr1 : trace) :
    loop_reaches w config q its tr k its_k tr_k ->
    _execute_iteration w config q (Z.of_nat (S k)) tr_k = (Ok it, tr1) ->
    spec_stop_condition 7 (max_research_iterations config) (Z.of_nat (S k))
                        (synthesis_result it)
    = Ok false ->
    loop_reaches w config q its tr (S k) (its_k ++ [it])%list tr1.

(** The final synthesis reply is nested too deep for [json.loads]. *)
Definition world_deep_final : World :=
  scripted_world (quiet_iteration "synthesis-8-done"
                  ++ [Reply "<<nested too deep>>"])%list
                 demo_table.

(** The expander's reply holds an integer too long for [json.loads]. *)
Definition world_long_integer : World :=
  scripted_world [Reply "<<integer too long>>"] demo_table.


(** Two iterations: in the first, the first summarizer call raises and
    the second returns; in the second, the synthesis call raises. *)
Definition world_late_failure : World :=
  scripted_world [ Reply "queries-a"; Hits [hit "u1" "c1"; hit "u2" "c2"];
                   Fails; Reply "summary-relevant";
                   Reply "synthesis-4-more";
                   Reply "queries-a"; Hits []; Fails ]
                 demo_table.

(** One iteration, then the final synthesis call raises. *)
Definition world_final_down : World :=
  scripted_world (quiet_iteration "synthesis-8-done") demo_table.

(** Two iterations: the expansion call of the second raises. *)
Definition world_late_expansion_failure : World :=
  scripted_world (quiet_iteration "synthesis-4-more" ++ [Fails])%list
                 demo_table.

Definition is_str (v : json) : bool :=
  match v with JStr _ => true | _ => false end.

(** The hits [search_single_query] returns for a query when [n] calls
    have been made before it. *)
Definition hits_at (w : World) (n : nat) (query : json) : list SearchResult :=
  match search_and_contents w n query with
  | Some results => results
  | None => []
  end.

(** The results of searching the queries of a list one after the other. *)
Fixpoint hits_from (w : World) (n : nat) (qs : list json)
  : list (list SearchResult) :=
  match qs with
  | [] => []
  | q :: qs' => hits_at w n q :: hits_from w (S n) qs'
  end.

(** The assignments [search_results[query] = result], one after the
    other. *)
Fixpoint assign_all (qrs : list (json * list SearchResult))
         (d : list (json * list SearchResult))
  : list (json * list SearchResult) :=
  match qrs with
  | [] => d
  | (q, r) :: rest => assign_all rest (search_dict_set q r d)
  end.

(** The value paired with the last occurrence of a key. *)
Fixpoint last_value (q : json) (qrs : list (json * list SearchResult))
  : option (list SearchResult) :=
  match qrs with
  | [] => None
  | (k, v) :: rest =>
      match last_value q rest with
      | Some x => Some x
      | None => if Py.key_eqb q k then Some v else None
      end
  end.

(** A computation that raises nothing but the exceptions of a given set. *)
Definition only_raises {A} (allowed : exn -> bool) (m : M A) : Prop :=
  forall tr e tr', m tr = (Raise e, tr') -> allowed e = true.


(** At most zero iterations: only the final synthesis is asked for. *)
Definition world_final_only : World :=
  scripted_world [Reply "synthesis-8-done"] demo_table.

(** The first iteration's synthesis decodes to a list. *)
Definition world_list_synthesis : World :=
  scripted_world [Reply "queries-a"; Hits []; Reply "a-list"] extra_table.

(** The final synthesis decodes to a list. *)
Definition world_list_final : World :=
  scripted_world (quiet_iteration "synthesis-8-done" ++ [Reply "a-list"])%list
                 extra_table.

(** The first iteration's synthesis gives its score as a string. *)
Definition world_text_score : World :=
  scripted_world [Reply "queries-a"; Hits []; Reply "synthesis-text-score"]
                 extra_table.

(** One iteration with two hits, one kept; the final synthesis names a
    [total_sources] of its own. *)
Definition world_metadata : World :=
  scripted_world [ Reply "queries-a";
                   Hits [hit "u1" "c1"; hit "u2" "c2"];
                   Reply "summary-relevant"; Reply "summary-irrelevant";
                   Reply "synthesis-8-done";
                   Reply "synthesis-own-metadata" ]
                 extra_table.

(** Every search fails. *)
Definition world_search_down : World :=
  scripted_world [Reply "queries-a"; Fails; Reply "synthesis-8-done"]
                 extra_table.

(** The expander's reply has no [queries]. *)
Definition world_no_queries : World :=
  scripted_world [Reply "no-queries"; Reply "synthesis-8-done";
                  Reply "synthesis-8-done"]
                 extra_table.

(** The expander's reply decodes to a list. *)
Definition world_list_queries : World :=
  scripted_world [Reply "a-list"] extra_table.

(** The same query twice: the first search finds a hit, the second none. *)
Definition world_repeated_query : World :=
  scripted_world [ Reply "queries-a-a"; Hits [hit "u1" "c1"]; Hits [];
                   Reply "synthesis-8-done"; Reply "synthesis-8-done" ]
                 extra_table.

(* ================================================================== *)
(** ** Reasoning about computations *)

Lemma bind_ok_inv {A B} (m : M A) (k : A -> M B) tr b tr' :
  bind m k tr = (Ok b, tr') ->
  exists a tr1, m tr = (Ok a, tr1) /\ k a tr1 = (Ok b, tr').
Proof.
  unfold bind. destruct (m tr) as [[a | e] tr1]; intros H.
  - exists a, tr1. split; [reflexivity | exact H].
  - discriminate H.
Qed.

Lemma bind_ok {A B} (m : M A) (k : A -> M B) tr a tr1 :
  m tr = (Ok a, tr1) -> bind m k tr = k a tr1.
Proof. unfold bind. intros ->. reflexivity. Qed.

Lemma bind_raise {A B} (m : M A) (k : A -> M B) tr e tr1 :
  m tr = (Raise e, tr1) -> bind m k tr = (Raise e, tr1).
Proof. unfold bind. intros ->. reflexivity. Qed.

Lemma lift_ok_inv {A} (r : result A) tr a tr' :
  lift r tr = (Ok a, tr') -> r = Ok a /\ tr' = tr.
Proof. unfold lift. intros H. inversion H. split; reflexivity. Qed.

Lemma ret_ok_inv {A} (x : A) tr a tr' :
  ret x tr = (Ok a, tr') -> a = x /\ tr' = tr.
Proof. unfold ret. intros H. inversion H. split; reflexivity. Qed.

(** A computation that only ever raises Python exceptions. *)
Definition python_only {A} (m : M A) : Prop :=
  forall tr tr', m tr <> (Raise OutOfFuel, tr').

Lemma python_only_ret {A} (a : A) : python_only (ret a).
Proof. intros tr tr' H. discriminate H. Qed.

Lemma python_only_lift {A} (r : result A) :
  r <> Raise OutOfFuel -> python_only (lift r).
Proof. intros Hr tr tr' H. inversion H. contradiction. Qed.

Lemma python_only_bind {A B} (m : M A) (k : A -> M B) :
  python_only m -> (forall a, python_only (k a)) -> python_only (bind m k).
Proof.
  intros Hm Hk tr tr'. unfold bind.
  destruct (m tr) as [[a | e] tr1] eqn:E.
  - apply Hk.
  - intros H. inversion H; subst. apply (Hm tr tr'). exact E.
Qed.

Lemma python_only_try {A} (body handler : M A) caught :
  python_only body -> python_only handler ->
  python_only (try_except body caught handler).
Proof.
  intros Hb Hh tr tr'. unfold try_except.
  destruct (body tr) as [[a | e] tr1] eqn:E.
  - discriminate.
  - destruct (caught e).
    + apply Hh.
    + intros H. inversion H; subst. apply (Hb tr tr'). exact E.
Qed.

Lemma python_only_attempt {A} (m : M A) : python_only (attempt m).
Proof.
  intros tr tr'. unfold attempt. destruct (m tr). discriminate.
Qed.

Lemma python_only_mapM {A B} (f : A -> M B) (l : list A) :
  (forall x, python_only (f x)) -> python_only (mapM f l).
Proof.
  intros Hf. induction l as [| x l IH]; simpl.
  - apply python_only_ret.
  - apply python_only_bind; [apply Hf |].
    intros y. apply python_only_bind; [exact IH |].
    intros ys. apply python_only_ret.
Qed.

Lemma get_python (v : json) k d : Py.get v k d <> Raise OutOfFuel.
Proof. destruct v; discriminate. Qed.

Lemma setitem_python (v : json) k x : Py.setitem v k x <> Raise OutOfFuel.
Proof. destruct v; discriminate. Qed.

Lemma ge_int_python (v : json) n : Py.ge_int v n <> Raise OutOfFuel.
Proof. destruct v; discriminate. Qed.

Lemma len_json_python (v : json) : Py.len_json v <> Raise OutOfFuel.
Proof. destruct v; discriminate. Qed.

Lemma elements_python (v : json) : Py.elements v <> Raise OutOfFuel.
Proof. destruct v; discriminate. Qed.

Section Components.

Variable w : World.
Variable config : Config.

Lemma call_model_python p : python_only (_call_model w p).
Proof.
  intros tr tr'. unfold _call_model.
  destruct (generate_content w (List.length tr) p); discriminate.
Qed.

Lemma loads_python s : python_only (loads w s).
Proof.
  intros tr tr'. unfold loads.
  destruct (json_loads w s); [discriminate |].
  destruct (json_failure w s); discriminate.
Qed.

Lemma generate_queries_python q : python_only (generate_queries w q).
Proof.
  unfold generate_queries. apply python_only_try.
  - apply python_only_bind; [apply call_model_python |].
    intros r. apply python_only_bind; [apply loads_python |].
    intros v. apply python_only_lift, get_python.
  - apply python_only_ret.
Qed.

Lemma synthesize_research_python q l :
  python_only (synthesize_research w q l).
Proof.
  unfold synthesize_research. apply python_only_try.
  - apply python_only_bind; [apply call_model_python |].
    intros r. apply loads_python.
  - apply python_only_ret.
Qed.

Lemma batch_summarize_python q l :
  python_only (batch_summarize w config q l).
Proof.
  unfold batch_summarize. apply python_only_bind.
  - apply python_only_mapM. intros [[sq u] c]. apply python_only_attempt.
  - intros rs. apply python_only_ret.
Qed.

Lemma search_single_query_python q : python_only (search_single_query w q).
Proof.
  intros tr tr'. unfold search_single_query.
  destruct (search_and_contents w (List.length tr) q); discriminate.
Qed.

Lemma collect_search_results_python queries qrs d :
  collect_search_results queries qrs d <> Raise OutOfFuel.
Proof.
  revert d. induction qrs as [| [q r] qrs IH]; intros d; simpl.
  - discriminate.
  - destruct (is_dict queries); [discriminate |].
    destruct (Py.hashable q); [apply IH | discriminate].
Qed.

Lemma search_multiple_queries_python queries :
  python_only (search_multiple_queries w queries).
Proof.
  unfold search_multiple_queries.
  destruct (negb (Py.truthy queries)); [apply python_only_ret |].
  apply python_only_bind; [apply python_only_lift, len_json_python |].
  intros _. apply python_only_bind; [apply python_only_lift, elements_python |].
  intros qs. apply python_only_bind.
  - apply python_only_mapM. intros q. apply search_single_query_python.
  - intros rs. apply python_only_lift, collect_search_results_python.
Qed.

Lemma relevant_summaries_python l :
  relevant_summaries l <> Raise OutOfFuel.
Proof.
  induction l as [| r l IH]; simpl; [discriminate |].
  destruct r; simpl; try exact IH; try discriminate.
  - destruct b; [discriminate | exact IH].
  - destruct (negb (z =? 0)); [discriminate | exact IH].
  - destruct (negb (Qeq_bool q 0)); [discriminate | exact IH].
  - destruct (negb (String.eqb s "")); [discriminate | exact IH].
  - destruct l0; [exact IH | discriminate].
  - destruct d as [| kv d]; [exact IH |].
    destruct (Py.truthy _); [| exact IH].
    destruct (relevant_summaries l); [discriminate | exact IH].
Qed.

Lemma execute_iteration_python q k :
  python_only (_execute_iteration w config q k).
Proof.
  unfold _execute_iteration.
  apply python_only_bind; [apply generate_queries_python |]. intros qs.
  apply python_only_bind; [apply python_only_lift, len_json_python |].
  intros _.
  apply python_only_bind; [apply search_multiple_queries_python |].
  intros d.
  apply python_only_bind; [apply batch_summarize_python |]. intros rs.
  apply python_only_bind;
    [apply python_only_lift, relevant_summaries_python |].
  intros ss.
  apply python_only_bind; [apply synthesize_research_python |].
  intros syn. apply python_only_ret.
Qed.

Lemma create_final_synthesis_python its q :
  python_only (_create_final_synthesis w its q).
Proof.
  unfold _create_final_synthesis.
  apply python_only_bind; [apply synthesize_research_python |]. intros fs.
  apply python_only_bind; [apply python_only_lift, setitem_python |].
  intros fs1.
  apply python_only_bind; [apply python_only_lift, setitem_python |].
  intros fs2 tr tr' H. inversion H as [[H1 H2]].
  revert H1. apply setitem_python.
Qed.

(** With fuel above the number of iterations left, the loop never runs
    out of it. *)
Lemma research_loop_python fuel q c its :
  (Z.to_nat (max_research_iterations config - c) < fuel)%nat ->
  python_only (research_loop w config fuel q c its).
Proof.
  revert c its. induction fuel as [| fuel IH]; intros c its Hfuel.
  - lia.
  - simpl. destruct (c <? max_research_iterations config) eqn:Hlt;
      [| apply python_only_ret].
    apply Z.ltb_lt in Hlt.
    apply python_only_bind; [apply execute_iteration_python |]. intros it.
    apply python_only_bind; [apply python_only_lift, get_python |].
    intros nm.
    apply python_only_bind; [apply python_only_lift, get_python |].
    intros cf.
    apply python_only_bind; [apply python_only_lift, ge_int_python |].
    intros high.
    destruct (high && negb (Py.truthy nm)); [apply python_only_ret |].
    destruct (c + 1 >=? max_research_iterations config);
      [apply python_only_ret |].
    apply IH. lia.
Qed.

(** [research] never reports the embedding's own error: its fuel is
    always enough. *)
Lemma research_python its q : python_only (research w config its q).
Proof.
  unfold research.
  apply python_only_bind; [apply research_loop_python; lia |].
  intros st.
  apply python_only_bind; [apply create_final_synthesis_python |].
  intros fs.
  apply python_only_bind; [apply python_only_lift, get_python |].
  intros cf. apply python_only_ret.
Qed.

End Components.

(* ================================================================== *)
(** ** The model-backed calls and the iteration engine *)

Section Engine.

Variable w : World.
Variable config : Config.

(** A reply that [json.loads] rejects with a [JSONDecodeError] sends each
    of the three calls to its [except] branch. *)
Lemma generate_queries_unparseable q tr text :
  generate_content w (List.length tr) (QueryGenerationPrompt q) = Some text ->
  json_loads w text = None ->
  json_failure w text = NotJSON ->
  generate_queries w q tr
  = (Ok (fallback_queries q),
     (tr ++ [GenerateContent (QueryGenerationPrompt q)])%list).
Proof.
  intros Hcall Hdec Hfail.
  unfold generate_queries, try_except, bind, _call_model, loads.
  rewrite Hcall, Hdec, Hfail. reflexivity.
Qed.

Lemma synthesize_research_unparseable q l tr text :
  generate_content w (List.length tr) (SynthesisPrompt q l) = Some text ->
  json_loads w text = None ->
  json_failure w text = NotJSON ->
  synthesize_research w q l tr
  = (Ok degraded_synthesis, (tr ++ [GenerateContent (SynthesisPrompt q l)])%list).
Proof.
  intros Hcall Hdec Hfail.
  unfold synthesize_research, try_except, bind, _call_model, loads.
  rewrite Hcall, Hdec, Hfail. reflexivity.
Qed.

(** A model call that raises is not caught by the two calls that are
    made outside a [gather]. *)
Lemma generate_queries_model_error q tr :
  generate_content w (List.length tr) (QueryGenerationPrompt q) = None ->
  generate_queries w q tr
  = (Raise ModelError, (tr ++ [GenerateContent (QueryGenerationPrompt q)])%list).
Proof.
  intros Hcall.
  unfold generate_queries, try_except, bind, _call_model.
  rewrite Hcall. reflexivity.
Qed.

Lemma synthesize_research_model_error q l tr :
  generate_content w (List.length tr) (SynthesisPrompt q l) = None ->
  synthesize_research w q l tr
  = (Raise ModelError, (tr ++ [GenerateContent (SynthesisPrompt q l)])%list).
Proof.
  intros Hcall.
  unfold synthesize_research, try_except, bind, _call_model.
  rewrite Hcall. reflexivity.
Qed.

Lemma synthesize_research_trace q l tr r tr' :
  synthesize_research w q l tr = (r, tr') ->
  tr' = (tr ++ [GenerateContent (SynthesisPrompt q l)])%list.
Proof.
  unfold synthesize_research, try_except, bind, _call_model, loads.
  destruct (generate_content w (List.length tr) (SynthesisPrompt q l))
    as [text |].
  - destruct (json_loads w text); simpl;
      [| destruct (json_failure w text); simpl];
      intros H; inversion H; reflexivity.
  - simpl. intros H; inversion H; reflexivity.
Qed.

(** [summarize_content] with a failing model call raises; the task of
    the batch keeps the exception as its result. *)
Lemma summarize_content_model_error q sq u c tr :
  generate_content w (List.length tr)
    (SummarizerPrompt q sq u (Py.slice_to (content_snippet_length config) c))
  = None ->
  exists tr', summarize_content w config q sq u c tr = (Raise ModelError, tr').
Proof.
  intros Hcall.
  unfold summarize_content, try_except, bind, _call_model.
  rewrite Hcall. simpl. eexists. reflexivity.
Qed.

Lemma gather_total {A B} (f : A -> M B) (l : list A) tr :
  exists rs tr', mapM (fun x => attempt (f x)) l tr = (Ok rs, tr')
                 /\ List.length rs = List.length l.
Proof.
  revert tr. induction l as [| x l IH]; intros tr; simpl.
  - exists [], tr. split; reflexivity.
  - unfold bind at 1. unfold attempt at 1.
    destruct (f x tr) as [r tr1].
    destruct (IH tr1) as (rs & tr2 & Hrs & Hlen).
    unfold bind at 1. rewrite Hrs. unfold ret.
    exists (r :: rs), tr2. split; [reflexivity | simpl; congruence].
Qed.

Lemma mapM_ext {A B} (f g : A -> M B) (l : list A) :
  (forall x, f x = g x) -> mapM f l = mapM g l.
Proof.
  intros Hfg. induction l as [| x l IH]; simpl; [reflexivity |].
  rewrite Hfg, IH. reflexivity.
Qed.

Lemma valid_results_dicts rs :
  Forall (fun v => is_dict v = true) (valid_results rs).
Proof.
  induction rs as [| r rs IH]; simpl; [constructor |].
  destruct r as [v | e]; simpl; [| exact IH].
  destruct (is_dict v) eqn:E; [constructor; assumption | exact IH].
Qed.

(** [batch_summarize] returns whatever the model does, and returns
    dicts only. *)
Lemma batch_summarize_total q l tr :
  exists produced tr',
    batch_summarize w config q l tr = (Ok produced, tr')
    /\ Forall (fun v => is_dict v = true) produced.
Proof.
  unfold batch_summarize.
  destruct (gather_total
              (fun t : json * string * string =>
                 let '(sq, u, c) := t in summarize_content w config q sq u c)
              l tr) as (rs & tr' & Hrs & _).
  exists (valid_results rs), tr'. split; [| apply valid_results_dicts].
  unfold bind.
  rewrite (mapM_ext _
             (fun x : json * string * string =>
                attempt (let '(sq, u, c) := x in
                         summarize_content w config q sq u c)) l)
    by (intros [[sq u] c]; reflexivity).
  rewrite Hrs. reflexivity.
Qed.

(** On dicts, the conversion loop is the filter on the relevance flag
    followed by the construction of the records. *)
Lemma relevant_summaries_step d rest :
  relevant_summaries (JDict d :: rest)
  = if response_relevant d
    then rbind (relevant_summaries rest)
               (fun tl => Ok (summary_of_response d :: tl))
    else relevant_summaries rest.
Proof.
  destruct d as [| kv d]; [reflexivity |].
  unfold response_relevant, summary_of_response.
  cbn -[Py.lookup String.eqb].
  destruct (Py.truthy
              match Py.lookup "is_relevant" (kv :: d) with
              | Some x => x
              | None => JBool false
              end); cbn -[Py.lookup String.eqb]; reflexivity.
Qed.

Lemma relevant_summaries_dicts produced :
  Forall (fun v => is_dict v = true) produced ->
  relevant_summaries produced
  = Ok (map summary_of_response
            (filter response_relevant (dicts_of produced))).
Proof.
  induction 1 as [| v produced Hv _ IH]; [reflexivity |].
  destruct v; try discriminate Hv.
  rewrite relevant_summaries_step. cbn [dicts_of filter].
  destruct (response_relevant d).
  - rewrite IH. reflexivity.
  - exact IH.
Qed.

Lemma filter_relevant_true d ds :
  In d (filter response_relevant ds) ->
  Py.truthy (is_relevant (summary_of_response d)) = true.
Proof.
  intros Hin. apply filter_In in Hin. destruct Hin as [_ Hrel].
  unfold response_relevant in Hrel. destruct d; [discriminate |].
  exact Hrel.
Qed.

(** What a completed iteration is made of. *)
Lemma execute_iteration_inv q k tr it tr' :
  _execute_iteration w config q k tr = (Ok it, tr') ->
  exists qs tr1 d tr2 produced tr3,
    generate_queries w q tr = (Ok qs, tr1)
    /\ search_multiple_queries w qs tr1 = (Ok d, tr2)
    /\ batch_summarize w config q (flatten_search_results d) tr2
       = (Ok produced, tr3)
    /\ Forall (fun v => is_dict v = true) produced
    /\ synthesize_research w q produced tr3 = (Ok (synthesis_result it), tr')
    /\ iteration_number it = k
    /\ queries it = qs
    /\ search_results it
       = flat_map (fun qr : json * list SearchResult => snd qr) d
    /\ summaries it
       = map summary_of_response
             (filter response_relevant (dicts_of produced)).
Proof.
  unfold _execute_iteration. intros H.
  apply bind_ok_inv in H. destruct H as (qs & tr1 & Hq & H).
  apply bind_ok_inv in H. destruct H as (n & tr1' & Hn & H).
  apply lift_ok_inv in Hn. destruct Hn as [_ ->].
  apply bind_ok_inv in H. destruct H as (d & tr2 & Hd & H).
  apply bind_ok_inv in H. destruct H as (produced & tr3 & Hb & H).
  apply bind_ok_inv in H. destruct H as (ss & tr3' & Hs & H).
  apply lift_ok_inv in Hs. destruct Hs as [Hs ->].
  apply bind_ok_inv in H. destruct H as (syn & tr4 & Hsyn & H).
  apply ret_ok_inv in H. destruct H as [-> ->].
  destruct (batch_summarize_total q (flatten_search_results d) tr2)
    as (produced' & tr3' & Hb' & Hdicts).
  rewrite Hb in Hb'. inversion Hb'; subst produced' tr3'.
  rewrite (relevant_summaries_dicts _ Hdicts) in Hs.
  inversion Hs; subst ss.
  exists qs, tr1, d, tr2, produced, tr3.
  simpl. repeat split; assumption.
Qed.

(** Every summary an iteration stores passed the relevance filter and
    has no search query recorded. *)
Lemma execute_iteration_summaries q k tr it tr' :
  _execute_iteration w config q k tr = (Ok it, tr') ->
  Forall (fun s => Py.truthy (is_relevant s) = true /\ search_query s = "")
         (summaries it).
Proof.
  intros H. apply execute_iteration_inv in H.
  destruct H as (qs & tr1 & d & tr2 & produced & tr3 & _ & _ & _ & _ & _
                 & _ & _ & _ & Hs).
  rewrite Hs. apply Forall_forall. intros s Hin.
  apply in_map_iff in Hin. destruct Hin as (dd & <- & Hin).
  split; [eapply filter_relevant_true; exact Hin | reflexivity].
Qed.

End Engine.

(* ================================================================== *)
(** ** The controller *)

Lemma each_numbered_nth P first its k it :
  each_numbered P first its ->
  nth_error its k = Some it ->
  P (first + Z.of_nat k) it.
Proof.
  revert first k. induction its as [| x its IH]; intros first k Hall Hk.
  - destruct k; discriminate Hk.
  - destruct Hall as [Hx Hrest]. destruct k as [| k]; simpl in Hk.
    + inversion Hk; subst. replace (first + Z.of_nat 0) with first by lia.
      exact Hx.
    + replace (first + Z.of_nat (S k)) with (first + 1 + Z.of_nat k) by lia.
      apply IH; assumption.
Qed.

Lemma each_numbered_impl (P Q : Z -> ResearchIteration -> Prop) first its :
  (forall k it, P k it -> Q k it) ->
  each_numbered P first its -> each_numbered Q first its.
Proof.
  intros HPQ. revert first. induction its as [| x its IH]; intros first H.
  - exact I.
  - destruct H as [Hx Hrest]. split; [apply HPQ, Hx | apply IH, Hrest].
Qed.

Lemma sum_sources_from acc its :
  fold_left (fun a it => a + Z.of_nat (List.length (search_results it))) its acc
  = acc + hit_count_sum its.
Proof.
  revert acc. induction its as [| it its IH]; intros acc; simpl.
  - unfold hit_count_sum. simpl. lia.
  - rewrite IH. unfold hit_count_sum. simpl. lia.
Qed.

Lemma sum_sources_spec its : sum_sources its = hit_count_sum its.
Proof. unfold sum_sources. rewrite sum_sources_from. lia. Qed.

Section Controller.

Variable w : World.
Variable config : Config.

Local Abbreviation max := (max_research_iterations config).

(** The loop, from [iteration_count = c] with the history [its]: it
    appends the iterations it runs, numbers them from [c + 1], leaves
    after the first one at which the stop condition holds, runs at
    least one when [c] is below the maximum and never passes the
    maximum. *)
Lemma research_loop_spec fuel q c its tr n its' tr' :
  research_loop w config fuel q c its tr = (Ok (n, its'), tr') ->
  exists new,
    its' = (its ++ new)%list
    /\ n = c + Z.of_nat (List.length new)
    /\ each_numbered (loop_iteration w config q n) (c + 1) new
    /\ (c < max -> new <> [] /\ n <= max)
    /\ (max <= c -> new = []).
Proof.
  revert c its tr. induction fuel as [| fuel IH]; intros c its tr H.
  - discriminate H.
  - simpl in H. fold max in H.
    destruct (c <? max) eqn:Hlt.
    + apply Z.ltb_lt in Hlt.
      apply bind_ok_inv in H. destruct H as (it & tr1 & Hit & H).
      apply bind_ok_inv in H. destruct H as (nm & tr1' & Hnm & H).
      apply lift_ok_inv in Hnm. destruct Hnm as [Hnm ->].
      apply bind_ok_inv in H. destruct H as (cf & tr1' & Hcf & H).
      apply lift_ok_inv in Hcf. destruct Hcf as [Hcf ->].
      apply bind_ok_inv in H. destruct H as (high & tr1' & Hhigh & H).
      apply lift_ok_inv in Hhigh. destruct Hhigh as [Hhigh ->].
      assert (Hstop :
                spec_stop_condition 7 max (c + 1) (synthesis_result it)
                = Ok ((high && negb (Py.truthy nm)) || (c + 1 >=? max))).
      { unfold spec_stop_condition.
        rewrite Hnm. simpl. rewrite Hcf. simpl. rewrite Hhigh. reflexivity. }
      destruct (high && negb (Py.truthy nm)) eqn:Hconf.
      * apply ret_ok_inv in H. destruct H as [H ->].
        inversion H; subst n its'. exists [it]. simpl.
        repeat split; try reflexivity; try lia; try discriminate.
        -- exists tr, tr1. exact Hit.
        -- fold max. rewrite Hstop, Z.eqb_refl. reflexivity.
      * destruct (c + 1 >=? max) eqn:Hge.
        -- apply ret_ok_inv in H. destruct H as [H ->].
           inversion H; subst n its'. exists [it]. simpl.
           repeat split; try reflexivity; try lia; try discriminate.
           ++ exists tr, tr1. exact Hit.
           ++ fold max. rewrite Hstop, Z.eqb_refl. reflexivity.
        -- rewrite Z.geb_leb in Hge. apply Z.leb_gt in Hge.
           apply IH in H.
           destruct H as (new & -> & -> & Hnew & Hsome & _).
           destruct (Hsome Hge) as [Hne Hle].
           exists (it :: new). rewrite <- app_assoc. simpl.
           repeat split; try lia; try discriminate.
           ++ exists tr, tr1. exact Hit.
           ++ fold max. rewrite Hstop. simpl. f_equal. symmetry.
              apply Z.eqb_neq. destruct new; [contradiction | simpl; lia].
           ++ exact Hnew.
    + apply Z.ltb_ge in Hlt.
      apply ret_ok_inv in H. destruct H as [H ->].
      inversion H; subst n its'. exists []. rewrite app_nil_r. simpl.
      repeat split; try lia; try reflexivity.
Qed.

(** What a returned report is made of. *)
Lemma research_inv its q tr report its' tr' :
  research w config its q tr = (Ok (report, its'), tr') ->
  exists n tr1,
    research_loop w config (S (Z.to_nat max)) q 0 its tr = (Ok (n, its'), tr1)
    /\ _create_final_synthesis w its' q tr1 = (Ok (final_synthesis report), tr')
    /\ original_query report = q
    /\ iterations report = its'
    /\ total_sources report = sum_sources its'
    /\ Py.get (final_synthesis report) "confidence_score" (JInt 0)
       = Ok (confidence_score report).
Proof.
  unfold research. fold max. intros H.
  apply bind_ok_inv in H. destruct H as ([n st] & tr1 & Hloop & H).
  apply bind_ok_inv in H. destruct H as (fs & tr2 & Hfs & H).
  apply bind_ok_inv in H. destruct H as (cf & tr2' & Hcf & H).
  apply lift_ok_inv in Hcf. destruct Hcf as [Hcf ->].
  apply ret_ok_inv in H. destruct H as [H ->].
  inversion H; subst report its'. simpl in *.
  exists n, tr1. repeat split; assumption.
Qed.

(** The iterations a run appends to the history it started from. *)
Lemma research_new_iterations its q tr report its' tr' :
  research w config its q tr = (Ok (report, its'), tr') ->
  exists new,
    iterations report = (its ++ new)%list
    /\ its' = iterations report
    /\ each_numbered
         (loop_iteration w config q (Z.of_nat (List.length new))) 1 new
    /\ (0 < max -> new <> [] /\ Z.of_nat (List.length new) <= max)
    /\ (max <= 0 -> new = []).
Proof.
  intros H. apply research_inv in H.
  destruct H as (n & tr1 & Hloop & _ & _ & Hits & _).
  apply research_loop_spec in Hloop.
  destruct Hloop as (new & -> & -> & Hnew & Hsome & Hnone).
  exists new. rewrite Hits. simpl in *.
  repeat split; try assumption; try reflexivity.
  - apply Hsome. assumption.
  - apply Hsome. assumption.
Qed.

End Controller.

(* ================================================================== *)
(** ** The controller loop and the report *)

Lemma of_nat_eqb a b : (Z.of_nat a =? Z.of_nat b) = Nat.eqb a b.
Proof.
  destruct (Nat.eqb a b) eqn:E.
  - apply Nat.eqb_eq in E. subst. apply Z.eqb_refl.
  - apply Nat.eqb_neq in E. apply Z.eqb_neq. lia.
Qed.

Lemma each_numbered_In P first its it :
  each_numbered P first its -> In it its -> exists k, P k it.
Proof.
  revert first. induction its as [| x its IH]; intros first Hall Hin.
  - contradiction.
  - destruct Hall as [Hx Hrest]. destruct Hin as [-> | Hin].
    + exists first. exact Hx.
    + eapply IH; eassumption.
Qed.

(** The summaries of the iterations a run appends passed the relevance
    filter and carry no search query. *)
Lemma research_new_summaries w config its q tr report its' tr' :
  research w config its q tr = (Ok (report, its'), tr') ->
  exists new,
    iterations report = (its ++ new)%list
    /\ forall it s, In it new -> In s (summaries it) ->
         Py.truthy (is_relevant s) = true /\ search_query s = "".
Proof.
  intros H. apply research_new_iterations in H.
  destruct H as (new & Hits & _ & Hnew & _).
  exists new. split; [exact Hits |].
  intros it s Hit Hs.
  destruct (each_numbered_In _ _ _ _ Hnew Hit) as (k & (tr0 & tr1 & Hrun) & _).
  apply execute_iteration_summaries in Hrun.
  rewrite Forall_forall in Hrun. apply Hrun. exact Hs.
Qed.

(** C1.  After each iteration of a run the controller leaves the loop if
    and only if the specification's stop condition holds at the threshold
    7: for the [k]-th iteration a run appends (counted from 1), the
    condition "confidence score at least 7 and needs-more-research false,
    or [k] has reached the maximum" is true exactly when that iteration is
    the last one the run made. *)
Theorem research_stops_iff_stop_condition w config its q tr report its' tr' :
  research w config its q tr = (Ok (report, its'), tr') ->
  exists new,
    iterations report = (its ++ new)%list
    /\ (0 < max_research_iterations config -> new <> [])
    /\ forall k it,
         nth_error new k = Some it ->
         spec_stop_condition 7 (max_research_iterations config)
                             (Z.of_nat (S k)) (synthesis_result it)
         = Ok (Nat.eqb (S k) (List.length new)).
Proof.
  intros H. apply research_new_iterations in H.
  destruct H as (new & Hits & _ & Hnew & Hsome & _).
  exists new. split; [exact Hits |]. split; [apply Hsome |].
  intros k it Hk.
  destruct (each_numbered_nth _ _ _ _ _ Hnew Hk) as [_ Hstop].
  replace (Z.of_nat (S k)) with (1 + Z.of_nat k) by lia.
  rewrite Hstop. f_equal.
  replace (1 + Z.of_nat k) with (Z.of_nat (S k)) by lia.
  apply of_nat_eqb.
Qed.

(** The run of the specification's example: scores [4, 8], flags
    [true, false], at most 3 iterations.  The loop makes exactly 2
    iterations; the stop condition is false after the first and true after
    the second. *)
Lemma research_scores_4_8_makes_two_iterations :
  exists report its' tr',
    research world_4_8 (demo_config 3) [] "q" [] = (Ok (report, its'), tr')
    /\ map iteration_number (iterations report) = [1; 2]
    /\ exists new,
         iterations report = ([] ++ new)%list
         /\ (0 < max_research_iterations (demo_config 3) -> new <> [])
         /\ forall k it,
              nth_error new k = Some it ->
              spec_stop_condition 7 (max_research_iterations (demo_config 3))
                                  (Z.of_nat (S k)) (synthesis_result it)
              = Ok (Nat.eqb (S k) (List.length new)).
Proof.
  eexists _, _, _. split; [vm_compute; reflexivity |].
  split; [reflexivity |].
  eapply (research_stops_iff_stop_condition world_4_8 (demo_config 3)
                                            [] "q" []).
  vm_compute. reflexivity.
Defined.

(** Scores below 7 throughout: the loop makes all 3 iterations and leaves
    by exhaustion. *)
Example research_low_scores_makes_three_iterations :
  exists report its' tr',
    research world_low (demo_config 3) [] "q" [] = (Ok (report, its'), tr')
    /\ map iteration_number (iterations report) = [1; 2; 3]
    /\ map (fun it => Py.get (synthesis_result it) "confidence_score" (JInt 0))
           (iterations report)
       = [Ok (JInt 4); Ok (JInt 5); Ok (JInt 6)].
Proof.
  eexists _, _, _. split; [vm_compute; reflexivity |].
  split; reflexivity.
Qed.

(** A run on a fresh workflow, with a maximum of at least 1, returns
    between 1 and the maximum number of iterations, numbered 1, 2, ... *)
Lemma run_research_iteration_bounds w config q tr report its' tr' :
  1 <= max_research_iterations config ->
  run_research w config q tr = (Ok (report, its'), tr') ->
  1 <= Z.of_nat (List.length (iterations report))
    <= max_research_iterations config
  /\ numbered_from 1 (iterations report).
Proof.
  intros Hmax H. unfold run_research in H.
  apply bind_ok_inv in H. destruct H as (its & tr0 & Hinit & H).
  apply lift_ok_inv in Hinit. destruct Hinit as [Hinit ->].
  assert (its = []) as ->.
  { unfold init_workflow in Hinit.
    destruct (String.eqb (google_api_key config) ""); [discriminate |].
    destruct (String.eqb (exa_api_key config) ""); [discriminate |].
    inversion Hinit. reflexivity. }
  apply research_new_iterations in H.
  destruct H as (new & Hits & _ & Hnew & Hsome & _).
  simpl in Hits. rewrite Hits.
  destruct Hsome as [Hne Hle]; [lia |].
  split.
  - destruct new; [contradiction | simpl in *; lia].
  - unfold numbered_from. eapply each_numbered_impl; [| exact Hnew].
    intros k it [(tr1 & tr2 & Hrun) _].
    apply execute_iteration_inv in Hrun.
    destruct Hrun as (? & ? & ? & ? & ? & ? & _ & _ & _ & _ & _ & Hn & _).
    exact Hn.
Qed.

(** C3.  On a workflow object that has already answered a query,
    [research] appends to the same history: with a maximum of 1, the
    second report carries 2 iterations, numbered 1 and 1. *)
Theorem research_on_used_workflow_keeps_old_iterations :
  exists report1 its1 tr1 report2 its2 tr2,
    research world_two_queries (demo_config 1) [] "q1" []
    = (Ok (report1, its1), tr1)
    /\ research world_two_queries (demo_config 1) its1 "q2" tr1
       = (Ok (report2, its2), tr2)
    /\ max_research_iterations (demo_config 1) = 1
    /\ List.length (iterations report2) = 2%nat
    /\ map iteration_number (iterations report2) = [1; 1].
Proof.
  eexists _, _, _, _, _, _.
  split; [vm_compute; reflexivity |].
  split; [vm_compute; reflexivity |].
  repeat split.
Qed.

(** C6.  The report's [total_sources] is the sum, over the report's
    iterations, of the number of search hits of each. *)
Theorem report_total_sources_is_hit_sum w config its q tr report its' tr' :
  research w config its q tr = (Ok (report, its'), tr') ->
  total_sources report = hit_count_sum (iterations report).
Proof.
  intros H. apply research_inv in H.
  destruct H as (n & tr1 & _ & _ & _ & Hits & Htot & _).
  rewrite Htot, Hits. apply sum_sources_spec.
Qed.

Lemma report_total_sources_unparseable_run :
  exists report its' tr',
    research world_unparseable (demo_config 1) [] "q" []
    = (Ok (report, its'), tr')
    /\ total_sources report = 2
    /\ total_sources report = hit_count_sum (iterations report).
Proof.
  eexists _, _, _. split; [vm_compute; reflexivity |].
  split; [reflexivity |].
  eapply (report_total_sources_is_hit_sum world_unparseable (demo_config 1)
                                          [] "q" []).
  vm_compute. reflexivity.
Defined.



(** C10.  Every summary stored in an iteration of a returned report has
    the empty string as its [search_query].  The history the run started
    from is asked to satisfy the same. *)
Theorem stored_summaries_have_empty_search_query
        w config its q tr report its' tr' :
  research w config its q tr = (Ok (report, its'), tr') ->
  (forall it s, In it its -> In s (summaries it) -> search_query s = "") ->
  forall it s,
    In it (iterations report) -> In s (summaries it) -> search_query s = "".
Proof.
  intros H Hold it s Hit Hs.
  apply research_new_summaries in H. destruct H as (new & Hits & Hnew).
  rewrite Hits in Hit. apply in_app_or in Hit. destruct Hit as [Hit | Hit].
  - eapply Hold; eassumption.
  - eapply Hnew; eassumption.
Qed.

Lemma empty_search_query_unparseable_run :
  exists report its' tr',
    research world_unparseable (demo_config 1) [] "q" []
    = (Ok (report, its'), tr')
    /\ map (fun it => map search_query (summaries it)) (iterations report)
       = [[""]]
    /\ forall it s,
         In it (iterations report) -> In s (summaries it) ->
         search_query s = "".
Proof.
  eexists _, _, _. split; [vm_compute; reflexivity |].
  split; [reflexivity |].
  eapply (stored_summaries_have_empty_search_query
            world_unparseable (demo_config 1) [] "q" []).
  - vm_compute. reflexivity.
  - intros it s [].
Defined.

(* ================================================================== *)
(** ** Traces of the iteration engine *)

Section EngineTraces.

Variable w : World.
Variable config : Config.

Lemma search_single_query_total query tr :
  exists hits,
    search_single_query w query tr
    = (Ok hits, (tr ++ [SearchAndContents query])%list)
    /\ (search_and_contents w (List.length tr) query = None -> hits = []).
Proof.
  unfold search_single_query.
  destruct (search_and_contents w (List.length tr) query) as [rs |].
  - exists rs. split; [reflexivity | discriminate].
  - exists []. split; reflexivity.
Qed.

Lemma search_all_trace qs tr :
  exists rs,
    mapM (search_single_query w) qs tr
    = (Ok rs, (tr ++ map SearchAndContents qs)%list)
    /\ List.length rs = List.length qs.
Proof.
  revert tr. induction qs as [| q qs IH]; intros tr; simpl.
  - exists []. rewrite app_nil_r. split; reflexivity.
  - destruct (search_single_query_total q tr) as (hits & Hq & _).
    destruct (IH (tr ++ [SearchAndContents q])%list) as (rs & Hrs & Hlen).
    exists (hits :: rs).
    rewrite (bind_ok _ _ _ _ _ Hq), (bind_ok _ _ _ _ _ Hrs).
    unfold ret. rewrite <- app_assoc. simpl.
    split; [reflexivity | congruence].
Qed.

Lemma collect_search_results_ok queries qrs d :
  is_dict queries = false ->
  Forall (fun qr : json * list SearchResult => Py.hashable (fst qr) = true)
         qrs ->
  exists d', collect_search_results queries qrs d = Ok d'.
Proof.
  intros Hq Hall. revert d.
  induction Hall as [| [query res] qrs Hh _ IH]; intros d; simpl.
  - exists d. reflexivity.
  - rewrite Hq. simpl in Hh. rewrite Hh. apply IH.
Qed.

(** The three fallback queries are searched in order, and the searches
    never raise. *)
Lemma search_fallback_queries q tr :
  exists d,
    search_multiple_queries w (fallback_queries q) tr
    = (Ok d,
       (tr ++ [ SearchAndContents (JStr q);
                SearchAndContents (JStr ("comprehensive analysis of " ++ q));
                SearchAndContents (JStr ("latest research on " ++ q)) ])%list).
Proof.
  unfold search_multiple_queries, fallback_queries.
  cbn [Py.truthy negb Py.len_json Py.elements].
  set (qs := [JStr q; JStr ("comprehensive analysis of " ++ q);
              JStr ("latest research on " ++ q)]).
  destruct (search_all_trace qs tr) as (rs & Hrs & Hlen).
  destruct (collect_search_results_ok (JList qs) (combine qs rs) [])
    as (d & Hd).
  { reflexivity. }
  { destruct rs as [| r1 [| r2 [| r3 [| r4 rs]]]]; try discriminate Hlen.
    repeat constructor. }
  exists d.
  unfold bind at 1. unfold lift at 1.
  unfold bind at 1. unfold lift at 1.
  rewrite (bind_ok _ _ _ _ _ Hrs). unfold lift. rewrite Hd. reflexivity.
Qed.

Lemma summarize_content_trace q sq u c tr r tr' :
  summarize_content w config q sq u c tr = (r, tr') ->
  tr' = (tr ++ [GenerateContent
                  (SummarizerPrompt q sq u
                     (Py.slice_to (content_snippet_length config) c))])%list.
Proof.
  unfold summarize_content, try_except, bind, _call_model, loads.
  destruct (generate_content w (List.length tr) _) as [text |].
  - destruct (json_loads w text); simpl;
      [| destruct (json_failure w text); simpl];
      intros H; inversion H; reflexivity.
  - simpl. intros H; inversion H; reflexivity.
Qed.

Lemma gather_extends {A B} (f : A -> M B) (l : list A) :
  (forall x tr r tr', f x tr = (r, tr') -> exists rest, tr' = (tr ++ rest)%list) ->
  forall tr,
  exists rs rest,
    mapM (fun x => attempt (f x)) l tr = (Ok rs, (tr ++ rest)%list).
Proof.
  intros Hf. induction l as [| x l IH]; intros tr; simpl.
  - exists [], []. rewrite app_nil_r. reflexivity.
  - unfold bind at 1. unfold attempt at 1.
    destruct (f x tr) as [r tr1] eqn:E.
    apply Hf in E. destruct E as (rest1 & ->).
    destruct (IH (tr ++ rest1)%list) as (rs & rest & Hrs).
    unfold bind at 1. rewrite Hrs. unfold ret.
    exists (r :: rs), (rest1 ++ rest)%list. rewrite app_assoc. reflexivity.
Qed.

(** The batch only ever extends the trace. *)
Lemma batch_summarize_extends q l tr :
  exists produced rest,
    batch_summarize w config q l tr = (Ok produced, (tr ++ rest)%list)
    /\ Forall (fun v => is_dict v = true) produced.
Proof.
  destruct (gather_extends
              (fun t : json * string * string =>
                 let '(sq, u, c) := t in summarize_content w config q sq u c)
              l) with (tr := tr) as (rs & rest & Hrs).
  { intros [[sq u] c] tr0 r tr1 H.
    apply summarize_content_trace in H. eexists. exact H. }
  exists (valid_results rs), rest. split; [| apply valid_results_dicts].
  unfold batch_summarize, bind.
  rewrite (mapM_ext _
             (fun x : json * string * string =>
                attempt (let '(sq, u, c) := x in
                         summarize_content w config q sq u c)) l)
    by (intros [[sq u] c]; reflexivity).
  rewrite Hrs. reflexivity.
Qed.

(** The final synthesis is one call of the synthesizer over
    [all_summaries], followed by three item assignments. *)
Lemma create_final_synthesis_inv its q tr fs tr' :
  _create_final_synthesis w its q tr = (Ok fs, tr') ->
  exists d0,
    synthesize_research w q (all_summaries its) tr = (Ok (JDict d0), tr')
    /\ fs = JDict
              (Py.set_item "research_timestamp"
                 (JStr (now_isoformat w (List.length tr')))
                 (Py.set_item "total_sources"
                    (JInt (Z.of_nat (List.length (all_summaries its))))
                    (Py.set_item "total_iterations"
                       (JInt (Z.of_nat (List.length its))) d0))).
Proof.
  unfold _create_final_synthesis. intros H.
  apply bind_ok_inv in H. destruct H as (fs0 & tr1 & Hsyn & H).
  apply bind_ok_inv in H. destruct H as (fs1 & tr1' & H1 & H).
  apply lift_ok_inv in H1. destruct H1 as [H1 ->].
  apply bind_ok_inv in H. destruct H as (fs2 & tr1' & H2 & H).
  apply lift_ok_inv in H2. destruct H2 as [H2 ->].
  inversion H; subst tr'. clear H.
  destruct fs0; try discriminate H1. simpl in H1. inversion H1; subst fs1.
  simpl in H2. inversion H2; subst fs2. simpl in H3. inversion H3.
  exists d. split; [exact Hsyn | reflexivity].
Qed.

End EngineTraces.

Lemma length_substring_prefix n s :
  (n <= String.length s)%nat -> String.length (substring 0 n s) = n.
Proof.
  revert n. induction s as [| c s IH]; intros n Hn; simpl in *.
  - destruct n; [reflexivity | lia].
  - destruct n; [reflexivity |]. simpl. f_equal. apply IH. lia.
Qed.

Lemma length_string_append s t :
  String.length (s ++ t) = (String.length s + String.length t)%nat.
Proof. induction s as [| c s IH]; simpl; [reflexivity | now rewrite IH]. Qed.

(* ================================================================== *)
(** ** Degradation and propagation of failures *)

(** C5, amended.  When [json.loads] rejects the expander's reply with a
    [JSONDecodeError], [generate_queries] returns the three fallback
    queries in order, and the iteration goes on with exactly these:
    whatever becomes of the iteration, its trace opens with the expansion
    call followed by one search per fallback query, in order, and an
    iteration that completes records the three queries. *)
Theorem expander_unparseable_gives_fallback_queries w config q k tr text :
  generate_content w (List.length tr) (QueryGenerationPrompt q) = Some text ->
  json_loads w text = None ->
  json_failure w text = NotJSON ->
  generate_queries w q tr
  = (Ok (JList [ JStr q;
                 JStr ("comprehensive analysis of " ++ q);
                 JStr ("latest research on " ++ q) ]),
     (tr ++ [GenerateContent (QueryGenerationPrompt q)])%list)
  /\ forall r tr',
       _execute_iteration w config q k tr = (r, tr') ->
       (exists rest,
           tr' = (tr ++ [ GenerateContent (QueryGenerationPrompt q);
                          SearchAndContents (JStr q);
                          SearchAndContents
                            (JStr ("comprehensive analysis of " ++ q));
                          SearchAndContents
                            (JStr ("latest research on " ++ q)) ]
                     ++ rest)%list)
       /\ forall it, r = Ok it ->
            queries it = JList [ JStr q;
                                 JStr ("comprehensive analysis of " ++ q);
                                 JStr ("latest research on " ++ q) ].
Proof.
  intros Hcall Hdec Hfail.
  pose proof (generate_queries_unparseable w q tr text Hcall Hdec Hfail) as Hq.
  split; [exact Hq |].
  intros r tr' H. unfold _execute_iteration in H.
  rewrite (bind_ok _ _ _ _ _ Hq) in H.
  unfold bind at 1 in H. unfold lift at 1 in H.
  cbn [fallback_queries Py.len_json] in H.
  destruct (search_fallback_queries w q
              (tr ++ [GenerateContent (QueryGenerationPrompt q)])%list)
    as (d & Hd).
  unfold fallback_queries in Hd. rewrite (bind_ok _ _ _ _ _ Hd) in H.
  destruct (batch_summarize_extends w config q (flatten_search_results d)
              ((tr ++ [GenerateContent (QueryGenerationPrompt q)]) ++
               [ SearchAndContents (JStr q);
                 SearchAndContents (JStr ("comprehensive analysis of " ++ q));
                 SearchAndContents (JStr ("latest research on " ++ q)) ])%list)
    as (produced & rest & Hb & Hdicts).
  rewrite (bind_ok _ _ _ _ _ Hb) in H.
  unfold bind at 1 in H. unfold lift at 1 in H.
  rewrite (relevant_summaries_dicts _ Hdicts) in H.
  unfold bind in H.
  destruct (synthesize_research w q produced _) as [[syn | e] tr4] eqn:Hsyn;
    apply synthesize_research_trace in Hsyn; subst tr4;
    inversion H; subst r tr'; clear H.
  - split.
    + eexists. rewrite <- !app_assoc. simpl. reflexivity.
    + intros it Hit. inversion Hit. reflexivity.
  - split.
    + eexists. rewrite <- !app_assoc. simpl. reflexivity.
    + intros it Hit. discriminate Hit.
Qed.

Lemma expander_unparseable_run :
  generate_queries world_unparseable "q" []
  = (Ok (JList [ JStr "q";
                 JStr ("comprehensive analysis of " ++ "q");
                 JStr ("latest research on " ++ "q") ]),
     ([] ++ [GenerateContent (QueryGenerationPrompt "q")])%list)
  /\ forall r tr',
       _execute_iteration world_unparseable (demo_config 1) "q" 1 [] = (r, tr') ->
       (exists rest,
           tr' = ([] ++ [ GenerateContent (QueryGenerationPrompt "q");
                          SearchAndContents (JStr "q");
                          SearchAndContents
                            (JStr ("comprehensive analysis of " ++ "q"));
                          SearchAndContents
                            (JStr ("latest research on " ++ "q")) ]
                     ++ rest)%list)
       /\ forall it, r = Ok it ->
            queries it = JList [ JStr "q";
                                 JStr ("comprehensive analysis of " ++ "q");
                                 JStr ("latest research on " ++ "q") ].
Proof.
  apply (expander_unparseable_gives_fallback_queries
           world_unparseable (demo_config 1) "q" 1 [] "<<not json>>");
    reflexivity.
Defined.

(** C4, amended.  A final synthesis whose reply [json.loads] rejects with
    a [JSONDecodeError] still gives a report, with [confidence_score] 1
    and a final synthesis whose [needs_more_research] is true; an
    iteration whose synthesis reply is rejected in that way still
    completes, with the same two values in its synthesis result.  The
    earlier steps of the run, respectively of the iteration, are supposed
    to have returned. *)
Theorem unparseable_synthesis_degrades w config :
  (forall its q tr n its1 tr1 text,
      research_loop w config (S (Z.to_nat (max_research_iterations config)))
                    q 0 its tr
      = (Ok (n, its1), tr1) ->
      generate_content w (List.length tr1)
                       (SynthesisPrompt q (all_summaries its1)) = Some text ->
      json_loads w text = None ->
      json_failure w text = NotJSON ->
      exists report tr',
        research w config its q tr = (Ok (report, its1), tr')
        /\ iterations report = its1
        /\ confidence_score report = JInt 1
        /\ Py.get (final_synthesis report) "needs_more_research" (JBool false)
           = Ok (JBool true))
  /\ (forall q k tr qs tr1 n d tr2 produced tr3 text,
         generate_queries w q tr = (Ok qs, tr1) ->
         Py.len_json qs = Ok n ->
         search_multiple_queries w qs tr1 = (Ok d, tr2) ->
         batch_summarize w config q (flatten_search_results d) tr2
         = (Ok produced, tr3) ->
         generate_content w (List.length tr3) (SynthesisPrompt q produced)
         = Some text ->
         json_loads w text = None ->
         json_failure w text = NotJSON ->
         exists it tr',
           _execute_iteration w config q k tr = (Ok it, tr')
           /\ iteration_number it = k
           /\ Py.get (synthesis_result it) "confidence_score" (JInt 0)
              = Ok (JInt 1)
           /\ Py.get (synthesis_result it) "needs_more_research" (JBool false)
              = Ok (JBool true)).
Proof.
  split.
  - intros its q tr n its1 tr1 text Hloop Hcall Hdec Hfail.
    pose proof (synthesize_research_unparseable w q _ tr1 text Hcall Hdec Hfail)
      as Hsyn.
    assert (Hfs : exists fs,
               _create_final_synthesis w its1 q tr1
               = (Ok fs, (tr1 ++ [GenerateContent
                                    (SynthesisPrompt q (all_summaries its1))])%list)
               /\ Py.get fs "confidence_score" (JInt 0) = Ok (JInt 1)
               /\ Py.get fs "needs_more_research" (JBool false)
                  = Ok (JBool true)).
    { unfold _create_final_synthesis.
      rewrite (bind_ok _ _ _ _ _ Hsyn).
      eexists. split; [reflexivity |]. split; reflexivity. }
    destruct Hfs as (fs & Hfs & Hconf & Hmore).
    unfold research. rewrite (bind_ok _ _ _ _ _ Hloop). cbn [snd].
    rewrite (bind_ok _ _ _ _ _ Hfs).
    unfold bind at 1. unfold lift at 1. rewrite Hconf.
    eexists _, _. split; [reflexivity |].
    repeat split. exact Hmore.
  - intros q k tr qs tr1 n d tr2 produced tr3 text
           Hq Hn Hd Hb Hcall Hdec Hfail.
    pose proof (synthesize_research_unparseable w q _ tr3 text Hcall Hdec Hfail)
      as Hsyn.
    destruct (batch_summarize_total w config q (flatten_search_results d) tr2)
      as (produced' & tr3' & Hb' & Hdicts).
    rewrite Hb in Hb'. inversion Hb'; subst produced' tr3'.
    unfold _execute_iteration.
    rewrite (bind_ok _ _ _ _ _ Hq).
    unfold bind at 1. unfold lift at 1. rewrite Hn.
    rewrite (bind_ok _ _ _ _ _ Hd), (bind_ok _ _ _ _ _ Hb).
    unfold bind at 1. unfold lift at 1.
    rewrite (relevant_summaries_dicts _ Hdicts).
    rewrite (bind_ok _ _ _ _ _ Hsyn).
    eexists _, _. split; [reflexivity |].
    repeat split.
Qed.

Lemma unparseable_synthesis_run :
  (exists report tr',
      research world_unparseable (demo_config 1) [] "q" []
      = (Ok (report, iterations report), tr')
      /\ List.length (iterations report) = 1%nat
      /\ confidence_score report = JInt 1
      /\ Py.get (final_synthesis report) "needs_more_research" (JBool false)
         = Ok (JBool true))
  /\ (exists it tr',
         _execute_iteration world_unparseable (demo_config 1) "q" 1 []
         = (Ok it, tr')
         /\ iteration_number it = 1
         /\ Py.get (synthesis_result it) "confidence_score" (JInt 0)
            = Ok (JInt 1)
         /\ Py.get (synthesis_result it) "needs_more_research" (JBool false)
            = Ok (JBool true)).
Proof.
  split.
  - edestruct (proj1 (unparseable_synthesis_degrades
                        world_unparseable (demo_config 1)) [] "q" [])
      as (report & tr' & Hrun & Hits & Hconf & Hmore).
    + vm_compute. reflexivity.
    + vm_compute. reflexivity.
    + reflexivity.
    + reflexivity.
    + exists report, tr'. rewrite Hits.
      split; [exact Hrun |]. split; [reflexivity |].
      split; assumption.
  - destruct (generate_queries world_unparseable "q" [])
      as [qsr tr1] eqn:Hq.
    vm_compute in Hq. inversion Hq; subst qsr tr1; clear Hq.
    eapply (proj2 (unparseable_synthesis_degrades
                     world_unparseable (demo_config 1)) "q" 1 []).
    + vm_compute. reflexivity.
    + reflexivity.
    + vm_compute. reflexivity.
    + vm_compute. reflexivity.
    + vm_compute. reflexivity.
    + reflexivity.
    + reflexivity.
Defined.

(** C2, as the specification states it, fails: the model raising on the
    expansion call makes the run raise, with both credentials present. *)
Lemma model_failure_leaves_run_research :
  init_workflow (demo_config 3) = Ok []
  /\ generate_content world_model_down 0 (QueryGenerationPrompt "q") = None
  /\ run_research world_model_down (demo_config 3) "q" []
     = (Raise ModelError, [GenerateContent (QueryGenerationPrompt "q")]).
Proof. repeat split. Qed.

(* ================================================================== *)
(** ** What the synthesizer is given *)



(* ================================================================== *)
(** ** Serialization of the report *)

Lemma content_preview_short content :
  Py.len content <= 500 -> content_preview content = content.
Proof.
  intros H. unfold content_preview.
  destruct (Py.len content >? 500) eqn:E; [| reflexivity].
  rewrite Z.gtb_ltb in E. apply Z.ltb_lt in E. lia.
Qed.

Lemma content_preview_long content :
  500 < Py.len content ->
  content_preview content = substring 0 500 content ++ "..."
  /\ Py.len (content_preview content) = 503.
Proof.
  intros H. unfold content_preview.
  destruct (Py.len content >? 500) eqn:E.
  - change (Py.slice_to 500 content) with (substring 0 500 content).
    split; [reflexivity |].
    unfold Py.len in *. rewrite length_string_append.
    rewrite length_substring_prefix by lia. reflexivity.
  - rewrite Z.gtb_ltb in E. apply Z.ltb_ge in E. lia.
Qed.

(** C9.  [to_dict] keeps the original query, the number of iterations and
    the confidence score as they are, and writes every search hit's
    content through [content_preview], a function of the content alone:
    the content itself when it has at most 500 characters, and otherwise
    its first 500 characters followed by "...", 503 characters in all. *)
Theorem to_dict_preserves_and_truncates (r : FinalResearchReport) :
  Py.get (to_dict r) "original_query" JNull = Ok (JStr (original_query r))
  /\ Py.get (to_dict r) "confidence_score" JNull = Ok (confidence_score r)
  /\ (exists its,
         Py.get (to_dict r) "iterations" JNull = Ok (JList its)
         /\ List.length its = List.length (iterations r)
         /\ forall j it i sr,
              nth_error (iterations r) j = Some it ->
              nth_error (search_results it) i = Some sr ->
              exists dit hits dsr,
                nth_error its j = Some dit
                /\ Py.get dit "search_results" JNull = Ok (JList hits)
                /\ nth_error hits i = Some dsr
                /\ Py.get dsr "content" JNull
                   = Ok (JStr (content_preview (sr_content sr))))
  /\ (forall content,
         Py.len content <= 500 -> content_preview content = content)
  /\ (forall content,
         500 < Py.len content ->
         content_preview content = substring 0 500 content ++ "..."
         /\ Py.len (content_preview content) = 503).
Proof.
  split; [reflexivity |]. split; [reflexivity |].
  split; [| split; [apply content_preview_short | apply content_preview_long]].
  exists (map iteration_to_dict (iterations r)).
  split; [reflexivity |]. split; [apply length_map |].
  intros j it i sr Hj Hi.
  exists (iteration_to_dict it),
         (map search_result_to_dict (search_results it)),
         (search_result_to_dict sr).
  split; [apply map_nth_error; exact Hj |].
  split; [reflexivity |].
  split; [apply map_nth_error; exact Hi | reflexivity].
Qed.

(** The 600-character content of the sample report is written as its
    first 500 characters and "...". *)
Lemma to_dict_sample_report :
  Py.len long_content = 600
  /\ content_preview long_content
     = substring 0 500 long_content ++ "..."
  /\ Py.len (content_preview long_content) = 503
  /\ content_preview "short" = "short".
Proof.
  split; [vm_compute; reflexivity |].
  split; [| split].
  - apply (proj2 (proj2 (proj2 (proj2
             (to_dict_preserves_and_truncates sample_report))))).
    vm_compute. reflexivity.
  - apply (proj2 (proj2 (proj2 (proj2
             (to_dict_preserves_and_truncates sample_report))))).
    vm_compute. reflexivity.
  - apply (proj1 (proj2 (proj2 (proj2
             (to_dict_preserves_and_truncates sample_report))))).
    vm_compute. discriminate.
Defined.

(* ================================================================== *)
(** ** More on the controller *)

Section ControllerFacts.

Variable w : World.
Variable config : Config.

Local Abbreviation max := (max_research_iterations config).

Lemma synthesize_research_decoded q l tr text v :
  generate_content w (List.length tr) (SynthesisPrompt q l) = Some text ->
  json_loads w text = Some v ->
  synthesize_research w q l tr
  = (Ok v, (tr ++ [GenerateContent (SynthesisPrompt q l)])%list).
Proof.
  intros Hcall Hdec.
  unfold synthesize_research, try_except, bind, _call_model, loads.
  rewrite Hcall, Hdec. reflexivity.
Qed.

(** Once the steps before the synthesis have returned, the iteration is
    decided by the synthesis call alone. *)
Lemma execute_iteration_from_synthesis q k tr qs d produced tr3 :
  reaches_synthesis w config q tr qs d produced tr3 ->
  _execute_iteration w config q k tr
  = match synthesize_research w q produced tr3 with
    | (Ok synthesis, tr4) =>
        (Ok (iteration_record k qs d produced synthesis), tr4)
    | (Raise e, tr4) => (Raise e, tr4)
    end.
Proof.
  intros (tr1 & n & tr2 & Hq & Hn & Hd & Hb).
  destruct (batch_summarize_total w config q (flatten_search_results d) tr2)
    as (produced' & tr3' & Hb' & Hdicts).
  rewrite Hb in Hb'. inversion Hb'; subst produced' tr3'.
  unfold _execute_iteration.
  rewrite (bind_ok _ _ _ _ _ Hq).
  unfold bind at 1. unfold lift at 1. rewrite Hn.
  rewrite (bind_ok _ _ _ _ _ Hd), (bind_ok _ _ _ _ _ Hb).
  unfold bind at 1. unfold lift at 1.
  rewrite (relevant_summaries_dicts _ Hdicts).
  unfold bind.
  destruct (synthesize_research w q produced tr3) as [[syn | e] tr4];
    reflexivity.
Qed.

(** The first turn of the loop when the engine raises. *)
Lemma research_first_iteration_raises its q tr e tr1 :
  0 < max ->
  _execute_iteration w config q 1 tr = (Raise e, tr1) ->
  research w config its q tr = (Raise e, tr1).
Proof.
  intros Hmax Hit. unfold research. apply bind_raise.
  simpl. apply Z.ltb_lt in Hmax. rewrite Hmax.
  apply bind_raise. exact Hit.
Qed.

(** The first turn of the loop when reading the synthesis raises. *)
Lemma research_first_reading_raises its q tr it tr1 e :
  0 < max ->
  _execute_iteration w config q 1 tr = (Ok it, tr1) ->
  rbind (Py.get (synthesis_result it) "needs_more_research" (JBool false))
        (fun _ =>
           rbind (Py.get (synthesis_result it) "confidence_score" (JInt 0))
                 (fun confidence => Py.ge_int confidence 7))
  = Raise e ->
  research w config its q tr = (Raise e, tr1).
Proof.
  intros Hmax Hit Hread. unfold research. apply bind_raise.
  simpl. apply Z.ltb_lt in Hmax. rewrite Hmax.
  rewrite (bind_ok _ _ _ _ _ Hit).
  unfold bind, lift.
  destruct (Py.get (synthesis_result it) "needs_more_research" (JBool false))
    as [nm | e1]; simpl in Hread.
  - destruct (Py.get (synthesis_result it) "confidence_score" (JInt 0))
      as [cf | e2]; simpl in Hread.
    + rewrite Hread. reflexivity.
    + inversion Hread. reflexivity.
  - inversion Hread. reflexivity.
Qed.

Lemma create_final_synthesis_trace its q tr r tr' :
  _create_final_synthesis w its q tr = (r, tr') ->
  tr' = (tr ++ [GenerateContent (SynthesisPrompt q (all_summaries its))])%list.
Proof.
  unfold _create_final_synthesis, bind, lift.
  destruct (synthesize_research w q (all_summaries its) tr)
    as [[fs | e] tr1] eqn:Hsyn;
    apply synthesize_research_trace in Hsyn; subst tr1.
  - destruct (Py.setitem fs "total_iterations" _) as [fs1 | e1].
    + destruct (Py.setitem fs1 "total_sources" _) as [fs2 | e2];
        intros H; inversion H; reflexivity.
    + intros H; inversion H; reflexivity.
  - intros H; inversion H; reflexivity.
Qed.

End ControllerFacts.

Lemma lookup_set_item_same k x d :
  Py.lookup k (Py.set_item k x d) = Some x.
Proof.
  induction d as [| [k' v] d IH]; simpl.
  - rewrite String.eqb_refl. reflexivity.
  - destruct (String.eqb k k') eqn:E; simpl; rewrite E; [reflexivity | exact IH].
Qed.

Lemma lookup_set_item_other k k' x d :
  k <> k' -> Py.lookup k (Py.set_item k' x d) = Py.lookup k d.
Proof.
  intros Hne. induction d as [| [k0 v] d IH]; simpl.
  - destruct (String.eqb k k') eqn:E; [| reflexivity].
    apply String.eqb_eq in E. contradiction.
  - destruct (String.eqb k' k0) eqn:E0; simpl.
    + apply String.eqb_eq in E0. subst k0.
      destruct (String.eqb k k') eqn:E; [| reflexivity].
      apply String.eqb_eq in E. contradiction.
    + destruct (String.eqb k k0); [reflexivity | exact IH].
Qed.

Lemma length_all_summaries its :
  List.length (all_summaries its)
  = List.length (flat_map summaries its).
Proof.
  unfold all_summaries. induction its as [| it its IH]; simpl; [reflexivity |].
  rewrite !length_app, length_map, IH. reflexivity.
Qed.

(** X1.  [research] only ever extends the history of the workflow: the
    report carries the iterations the workflow held before the call,
    followed by the iterations of this call, which are numbered 1, 2, ...;
    there are between 1 and the maximum of them when the maximum is
    positive, and none otherwise. *)
Theorem research_extends_history w config its q tr report its' tr' :
  research w config its q tr = (Ok (report, its'), tr') ->
  exists new,
    iterations report = (its ++ new)%list
    /\ its' = iterations report
    /\ numbered_from 1 new
    /\ (0 < max_research_iterations config ->
        1 <= Z.of_nat (List.length new) <= max_research_iterations config)
    /\ (max_research_iterations config <= 0 -> new = []).
Proof.
  intros H. apply research_new_iterations in H.
  destruct H as (new & Hits & Hst & Hnew & Hsome & Hnone).
  exists new. repeat split; try assumption.
  - unfold numbered_from. eapply each_numbered_impl; [| exact Hnew].
    intros k it [(tr1 & tr2 & Hrun) _].
    apply execute_iteration_inv in Hrun.
    destruct Hrun as (? & ? & ? & ? & ? & ? & _ & _ & _ & _ & _ & Hn & _).
    exact Hn.
  - destruct (Hsome H) as [Hne _]. destruct new; [contradiction | simpl; lia].
  - apply Hsome. assumption.
Qed.

Lemma research_extends_history_two_queries :
  exists report1 its1 tr1 report2 its2 tr2,
    research world_two_queries (demo_config 1) [] "q1" []
    = (Ok (report1, its1), tr1)
    /\ research world_two_queries (demo_config 1) its1 "q2" tr1
       = (Ok (report2, its2), tr2)
    /\ List.length its1 = 1%nat
    /\ exists new,
         iterations report2 = (its1 ++ new)%list
         /\ its2 = iterations report2
         /\ numbered_from 1 new
         /\ (0 < max_research_iterations (demo_config 1) ->
             1 <= Z.of_nat (List.length new)
               <= max_research_iterations (demo_config 1))
         /\ (max_research_iterations (demo_config 1) <= 0 -> new = []).
Proof.
  eexists _, _, _, _, _, _.
  split; [vm_compute; reflexivity |].
  split; [vm_compute; reflexivity |].
  split; [reflexivity |].
  eapply (research_extends_history
            world_two_queries (demo_config 1) _ "q2"
            (snd (research world_two_queries (demo_config 1) [] "q1" []))).
  vm_compute. reflexivity.
Defined.

(** X2.  With a maximum of zero or less, [research] runs no iteration: it
    makes one collaborator call, the final synthesis over the summaries of
    the history it was given, and a report it returns carries that history
    unchanged. *)
Theorem research_without_iterations w config its q tr r tr' :
  max_research_iterations config <= 0 ->
  research w config its q tr = (r, tr') ->
  tr' = (tr ++ [GenerateContent (SynthesisPrompt q (all_summaries its))])%list
  /\ forall report its',
       r = Ok (report, its') ->
       iterations report = its /\ its' = its
       /\ total_sources report = hit_count_sum its.
Proof.
  intros Hmax H. unfold research in H.
  assert (Hloop : research_loop w config
                    (S (Z.to_nat (max_research_iterations config))) q 0 its tr
                  = (Ok (0, its), tr)).
  { simpl. destruct (0 <? max_research_iterations config) eqn:E;
      [apply Z.ltb_lt in E; lia | reflexivity]. }
  rewrite (bind_ok _ _ _ _ _ Hloop) in H. cbn [snd] in H.
  unfold bind at 1 in H.
  destruct (_create_final_synthesis w its q tr) as [[fs | e] tr1] eqn:Hfs;
    apply create_final_synthesis_trace in Hfs; subst tr1.
  - unfold bind, lift, ret in H.
    destruct (Py.get fs "confidence_score" (JInt 0)) as [cf | e];
      inversion H; subst r tr'; split; try reflexivity.
    + intros report its' Hr. inversion Hr; subst. simpl.
      repeat split. apply sum_sources_spec.
    + intros report its' Hr. discriminate Hr.
  - inversion H; subst r tr'. split; [reflexivity |].
    intros report its' Hr. discriminate Hr.
Qed.

Lemma research_without_iterations_run :
  exists report tr',
    research world_final_only (demo_config 0) [] "q" []
    = (Ok (report, []), tr')
    /\ tr' = ([] ++ [GenerateContent (SynthesisPrompt "q" (all_summaries []))])%list
    /\ forall report0 its',
         @Ok (FinalResearchReport * list ResearchIteration) (report, [])
         = Ok (report0, its') ->
         iterations report0 = [] /\ its' = []
         /\ total_sources report0 = hit_count_sum [].
Proof.
  eexists _, _. split; [vm_compute; reflexivity |].
  apply (research_without_iterations world_final_only (demo_config 0) [] "q" []).
  - vm_compute. discriminate.
  - vm_compute. reflexivity.
Defined.

(** X3.  A run that makes fewer iterations than the maximum left the loop
    on an iteration whose synthesis has a confidence score of at least 7
    and a needs-more-research value that is false. *)
Theorem early_stop_means_confident w config its q tr report its' tr' new :
  research w config its q tr = (Ok (report, its'), tr') ->
  iterations report = (its ++ new)%list ->
  0 < max_research_iterations config ->
  Z.of_nat (List.length new) < max_research_iterations config ->
  exists earlier it confidence needs_more,
    new = (earlier ++ [it])%list
    /\ Py.get (synthesis_result it) "confidence_score" (JInt 0)
       = Ok confidence
    /\ Py.ge_int confidence 7 = Ok true
    /\ Py.get (synthesis_result it) "needs_more_research" (JBool false)
       = Ok needs_more
    /\ Py.truthy needs_more = false.
Proof.
  intros H Hsplit Hmax Hlt. apply research_new_iterations in H.
  destruct H as (new' & Hits & _ & Hnew & Hsome & _).
  rewrite Hits in Hsplit. apply app_inv_head in Hsplit. subst new'.
  destruct (Hsome Hmax) as [Hne _].
  destruct (exists_last Hne) as (earlier & it & ->).
  assert (Hk : nth_error (earlier ++ [it]) (List.length earlier) = Some it).
  { rewrite nth_error_app2 by lia. rewrite Nat.sub_diag. reflexivity. }
  destruct (each_numbered_nth _ _ _ _ _ Hnew Hk) as [_ Hstop].
  remember (1 + Z.of_nat (List.length earlier)) as k eqn:Hkdef.
  rewrite length_app in Hstop, Hlt. cbn [List.length] in Hstop, Hlt.
  assert (Heq : (k =? Z.of_nat (List.length earlier + 1)) = true)
    by (apply Z.eqb_eq; lia).
  assert (Hge : (k >=? max_research_iterations config) = false)
    by (rewrite Z.geb_leb; apply Z.leb_gt; lia).
  rewrite Heq in Hstop. clear Heq Hkdef.
  unfold spec_stop_condition in Hstop.
  destruct (Py.get (synthesis_result it) "needs_more_research" (JBool false))
    as [nm | e] eqn:Hgnm; [| discriminate Hstop]. cbn [rbind] in Hstop.
  destruct (Py.get (synthesis_result it) "confidence_score" (JInt 0))
    as [cf | e] eqn:Hgcf; [| discriminate Hstop]. cbn [rbind] in Hstop.
  destruct (Py.ge_int cf 7) as [high | e] eqn:Hhigh; [| discriminate Hstop].
  cbn [rbind] in Hstop. injection Hstop as Hb.
  rewrite Hge, orb_false_r in Hb. apply andb_true_iff in Hb.
  destruct Hb as [-> Hnm]. apply negb_true_iff in Hnm.
  exists earlier, it, cf, nm. repeat split; assumption || reflexivity.
Qed.

Lemma early_stop_scores_4_8 :
  exists report its' tr',
    research world_4_8 (demo_config 3) [] "q" [] = (Ok (report, its'), tr')
    /\ Z.of_nat (List.length (iterations report))
       < max_research_iterations (demo_config 3)
    /\ exists earlier it confidence needs_more,
         iterations report = (earlier ++ [it])%list
         /\ Py.get (synthesis_result it) "confidence_score" (JInt 0)
            = Ok confidence
         /\ Py.ge_int confidence 7 = Ok true
         /\ Py.get (synthesis_result it) "needs_more_research" (JBool false)
            = Ok needs_more
         /\ Py.truthy needs_more = false.
Proof.
  eexists _, _, _. split; [vm_compute; reflexivity |].
  split; [vm_compute; reflexivity |].
  eapply (early_stop_means_confident world_4_8 (demo_config 3) [] "q" []).
  - vm_compute. reflexivity.
  - reflexivity.
  - reflexivity.
  - vm_compute. reflexivity.
Defined.

(** X4.  A synthesis reply that decodes to something other than an object
    is not degraded: in the first iteration it makes [research] raise an
    [AttributeError] when the controller reads the result, and as the
    final synthesis it makes [research] raise a [TypeError] when the
    metadata is added. *)
Theorem non_object_synthesis_raises w config :
  (forall its q tr qs d produced tr3 text v,
      0 < max_research_iterations config ->
      reaches_synthesis w config q tr qs d produced tr3 ->
      generate_content w (List.length tr3) (SynthesisPrompt q produced)
      = Some text ->
      json_loads w text = Some v ->
      is_dict v = false ->
      research w config its q tr
      = (Raise AttributeError,
         (tr3 ++ [GenerateContent (SynthesisPrompt q produced)])%list))
  /\ (forall its q tr n its1 tr1 text v,
         research_loop w config (S (Z.to_nat (max_research_iterations config)))
                       q 0 its tr
         = (Ok (n, its1), tr1) ->
         generate_content w (List.length tr1)
                          (SynthesisPrompt q (all_summaries its1)) = Some text ->
         json_loads w text = Some v ->
         is_dict v = false ->
         research w config its q tr
         = (Raise TypeError,
            (tr1 ++ [GenerateContent
                       (SynthesisPrompt q (all_summaries its1))])%list)).
Proof.
  split.
  - intros its q tr qs d produced tr3 text v Hmax Hreach Hcall Hdec Hv.
    pose proof (synthesize_research_decoded w q _ tr3 text v Hcall Hdec) as Hsyn.
    pose proof (execute_iteration_from_synthesis w config q 1 tr _ _ _ _ Hreach)
      as Hit.
    rewrite Hsyn in Hit.
    eapply research_first_reading_raises; [exact Hmax | exact Hit |].
    simpl. destruct v; try reflexivity. discriminate Hv.
  - intros its q tr n its1 tr1 text v Hloop Hcall Hdec Hv.
    pose proof (synthesize_research_decoded w q _ tr1 text v Hcall Hdec) as Hsyn.
    unfold research. rewrite (bind_ok _ _ _ _ _ Hloop). cbn [snd].
    apply bind_raise. unfold _create_final_synthesis.
    rewrite (bind_ok _ _ _ _ _ Hsyn).
    apply bind_raise. unfold lift.
    destruct v; try reflexivity. discriminate Hv.
Qed.

Lemma non_object_synthesis_runs :
  research world_list_synthesis (demo_config 3) [] "q" []
  = (Raise AttributeError,
     ([GenerateContent (QueryGenerationPrompt "q"); SearchAndContents (JStr "a")]
      ++ [GenerateContent (SynthesisPrompt "q" [])])%list)
  /\ exists tr1,
       research world_list_final (demo_config 1) [] "q" []
       = (Raise TypeError, tr1).
Proof.
  split.
  - eapply (proj1 (non_object_synthesis_raises
                     world_list_synthesis (demo_config 3))
                  [] "q" [] (JList [JStr "a"]) [(JStr "a", [])]).
    + reflexivity.
    + eexists _, _, _. repeat split; vm_compute; reflexivity.
    + reflexivity.
    + reflexivity.
    + reflexivity.
  - eexists.
    eapply (proj2 (non_object_synthesis_raises
                     world_list_final (demo_config 1)) [] "q" []).
    + vm_compute. reflexivity.
    + vm_compute. reflexivity.
    + reflexivity.
    + reflexivity.
Defined.

(** X5.  A synthesis whose [confidence_score] is not a number (a string,
    a list, an object or null) makes the comparison with 7 raise: in the
    first iteration [research] raises a [TypeError]. *)
Theorem non_numeric_confidence_raises
        w config its q tr qs d produced tr3 text fields score :
  0 < max_research_iterations config ->
  reaches_synthesis w config q tr qs d produced tr3 ->
  generate_content w (List.length tr3) (SynthesisPrompt q produced)
  = Some text ->
  json_loads w text = Some (JDict fields) ->
  Py.lookup "confidence_score" fields = Some score ->
  Py.as_number score = None ->
  research w config its q tr
  = (Raise TypeError,
     (tr3 ++ [GenerateContent (SynthesisPrompt q produced)])%list).
Proof.
  intros Hmax Hreach Hcall Hdec Hscore Hnum.
  pose proof (synthesize_research_decoded w q _ tr3 text _ Hcall Hdec) as Hsyn.
  pose proof (execute_iteration_from_synthesis w config q 1 tr _ _ _ _ Hreach)
    as Hit.
  rewrite Hsyn in Hit.
  eapply research_first_reading_raises; [exact Hmax | exact Hit |].
  cbn [synthesis_result iteration_record Py.get rbind]. rewrite Hscore.
  destruct score; try reflexivity; discriminate Hnum.
Qed.

Lemma non_numeric_confidence_run :
  research world_text_score (demo_config 3) [] "q" []
  = (Raise TypeError,
     ([GenerateContent (QueryGenerationPrompt "q"); SearchAndContents (JStr "a")]
      ++ [GenerateContent (SynthesisPrompt "q" [])])%list).
Proof.
  eapply (non_numeric_confidence_raises
            world_text_score (demo_config 3) [] "q" []
            (JList [JStr "a"]) [(JStr "a", [])]).
  - reflexivity.
  - eexists _, _, _. repeat split; vm_compute; reflexivity.
  - reflexivity.
  - reflexivity.
  - reflexivity.
  - reflexivity.
Defined.

(** X6.  The final synthesis of a report is the synthesizer's decoded
    reply with three entries set by the controller, whatever the reply
    said under those names: [total_iterations] is the number of iterations
    of the report, [total_sources] is the number of summaries stored in
    them (not the number of search hits), and [research_timestamp] is the
    time of the call; every other entry of the reply is kept. *)
Theorem final_synthesis_metadata w config its q tr report its' tr' :
  research w config its q tr = (Ok (report, its'), tr') ->
  Py.get (final_synthesis report) "total_iterations" JNull
  = Ok (JInt (Z.of_nat (List.length (iterations report))))
  /\ Py.get (final_synthesis report) "total_sources" JNull
     = Ok (JInt (Z.of_nat (List.length (flat_map summaries (iterations report)))))
  /\ Py.get (final_synthesis report) "research_timestamp" JNull
     = Ok (JStr (now_isoformat w (List.length tr')))
  /\ exists reply tr1,
       synthesize_research w q (all_summaries (iterations report)) tr1
       = (Ok (JDict reply), tr')
       /\ forall k default,
            k <> "total_iterations" -> k <> "total_sources" ->
            k <> "research_timestamp" ->
            Py.get (final_synthesis report) k default
            = Py.get (JDict reply) k default.
Proof.
  intros H. apply research_inv in H.
  destruct H as (n & tr1 & _ & Hfs & _ & Hits & _).
  apply create_final_synthesis_inv in Hfs. destruct Hfs as (d0 & Hsyn & Hfs).
  rewrite Hits, Hfs. unfold Py.get.
  split; [| split; [| split]].
  - rewrite lookup_set_item_other by discriminate.
    rewrite lookup_set_item_other by discriminate.
    rewrite lookup_set_item_same. reflexivity.
  - rewrite lookup_set_item_other by discriminate.
    rewrite lookup_set_item_same, length_all_summaries. reflexivity.
  - rewrite lookup_set_item_same. reflexivity.
  - exists d0, tr1. split; [exact Hsyn |].
    intros k default H1 H2 H3.
    rewrite !lookup_set_item_other by assumption. reflexivity.
Qed.

(** In the run below the model answers the final synthesis with a
    [total_sources] of 99; the report has 2 search hits and 1 stored
    summary, and its final synthesis says 1. *)
Lemma final_synthesis_metadata_run :
  exists report its' tr',
    research world_metadata (demo_config 1) [] "q" []
    = (Ok (report, its'), tr')
    /\ total_sources report = 2
    /\ Py.get (final_synthesis report) "total_sources" JNull = Ok (JInt 1)
    /\ Py.get (final_synthesis report) "total_iterations" JNull
       = Ok (JInt (Z.of_nat (List.length (iterations report))))
    /\ Py.get (final_synthesis report) "total_sources" JNull
       = Ok (JInt (Z.of_nat (List.length (flat_map summaries (iterations report)))))
    /\ Py.get (final_synthesis report) "research_timestamp" JNull
       = Ok (JStr (now_isoformat world_metadata (List.length tr')))
    /\ exists reply tr1,
         synthesize_research world_metadata "q"
                             (all_summaries (iterations report)) tr1
         = (Ok (JDict reply), tr')
         /\ forall k default,
              k <> "total_iterations" -> k <> "total_sources" ->
              k <> "research_timestamp" ->
              Py.get (final_synthesis report) k default
              = Py.get (JDict reply) k default.
Proof.
  eexists _, _, _. split; [vm_compute; reflexivity |].
  split; [reflexivity |]. split; [reflexivity |].
  eapply (final_synthesis_metadata world_metadata (demo_config 1) [] "q" []).
  vm_compute. reflexivity.
Defined.

(* ================================================================== *)
(** ** The exceptions that leave a run *)





Lemma only_raises_attempt {A} allowed (m : M A) :
  only_raises allowed (attempt m).
Proof.
  intros tr e tr' H. unfold attempt in H. destruct (m tr). discriminate H.
Qed.


Section Escaping.

Variable w : World.
Variable config : Config.















End Escaping.



(* ================================================================== *)
(** ** More on the clients *)

Lemma length_flatten_search_results (d : search_dict) :
  List.length (flatten_search_results d)
  = List.length (flat_map (fun qr : json * list SearchResult => snd qr) d).
Proof.
  unfold flatten_search_results.
  induction d as [| [q rs] d IH]; simpl; [reflexivity |].
  rewrite !length_app, length_map, IH. reflexivity.
Qed.

Lemma get_total_results_count_from acc (d : search_dict) :
  fold_left (fun total qr => total + Z.of_nat (List.length (snd qr))) d acc
  = acc + Z.of_nat
            (List.length
               (flat_map (fun qr : json * list SearchResult => snd qr) d)).
Proof.
  revert acc. induction d as [| [q rs] d IH]; intros acc; simpl.
  - lia.
  - rewrite IH, length_app. simpl. lia.
Qed.

(** X8.  [get_total_results_count] of a search dict is the number of
    tuples [flatten_search_results] makes of it, which is the number of
    hits the iteration engine records for it. *)
Theorem total_results_count_is_flattened_length (d : search_dict) :
  get_total_results_count d = Z.of_nat (List.length (flatten_search_results d))
  /\ get_total_results_count d
     = Z.of_nat (List.length
                   (flat_map (fun qr : json * list SearchResult => snd qr) d)).
Proof.
  unfold get_total_results_count.
  rewrite get_total_results_count_from, length_flatten_search_results.
  split; reflexivity.
Qed.

Lemma length_valid_results rs :
  (List.length (valid_results rs) <= List.length rs)%nat.
Proof.
  induction rs as [| r rs IH]; simpl; [lia |].
  destruct (valid_result r); simpl; lia.
Qed.

Lemma length_dicts_of vs : (List.length (dicts_of vs) <= List.length vs)%nat.
Proof.
  induction vs as [| v vs IH]; simpl; [lia |].
  destruct v; simpl; lia.
Qed.

Section ClientFacts.

Variable w : World.
Variable config : Config.

Lemma gather_trace {A B} (f : A -> M B) (g : A -> request) (l : list A) :
  (forall x tr r tr', f x tr = (r, tr') -> tr' = (tr ++ [g x])%list) ->
  forall tr,
  exists rs,
    mapM (fun x => attempt (f x)) l tr = (Ok rs, (tr ++ map g l)%list)
    /\ List.length rs = List.length l.
Proof.
  intros Hf. induction l as [| x l IH]; intros tr; simpl.
  - exists []. rewrite app_nil_r. split; reflexivity.
  - unfold bind at 1. unfold attempt at 1.
    destruct (f x tr) as [r tr1] eqn:E.
    apply Hf in E. subst tr1.
    destruct (IH (tr ++ [g x])%list) as (rs & Hrs & Hlen).
    unfold bind at 1. rewrite Hrs. unfold ret.
    exists (r :: rs). rewrite <- app_assoc. simpl.
    split; [reflexivity | congruence].
Qed.

Lemma batch_summarize_requests q l tr :
  exists produced,
    batch_summarize w config q l tr
    = (Ok produced, (tr ++ map (summarizer_request config q) l)%list)
    /\ (List.length produced <= List.length l)%nat
    /\ Forall (fun v => is_dict v = true) produced.
Proof.
  destruct (gather_trace
              (fun t : json * string * string =>
                 let '(sq, u, c) := t in summarize_content w config q sq u c)
              (summarizer_request config q) l) with (tr := tr)
    as (rs & Hrs & Hlen).
  { intros [[sq u] c] tr0 r tr1 H.
    apply summarize_content_trace in H. exact H. }
  exists (valid_results rs). split; [| split].
  - unfold batch_summarize, bind.
    rewrite (mapM_ext _
               (fun x : json * string * string =>
                  attempt (let '(sq, u, c) := x in
                           summarize_content w config q sq u c)) l)
      by (intros [[sq u] c]; reflexivity).
    rewrite Hrs. reflexivity.
  - rewrite <- Hlen. apply length_valid_results.
  - apply valid_results_dicts.
Qed.

(** X9.  [batch_summarize] never raises: it sends one summarizer request
    per flattened hit, in order, whatever the model answers, and returns at
    most as many summaries as there are hits, all of them objects. *)
Theorem batch_summarize_one_call_per_hit q l tr :
  exists produced,
    batch_summarize w config q l tr
    = (Ok produced, (tr ++ map (summarizer_request config q) l)%list)
    /\ (List.length produced <= List.length l)%nat
    /\ Forall (fun v => is_dict v = true) produced.
Proof.
  destruct (gather_trace
              (fun t : json * string * string =>
                 let '(sq, u, c) := t in summarize_content w config q sq u c)
              (summarizer_request config q) l) with (tr := tr)
    as (rs & Hrs & Hlen).
  { intros [[sq u] c] tr0 r tr1 H.
    apply summarize_content_trace in H. exact H. }
  exists (valid_results rs). split; [| split].
  - unfold batch_summarize, bind.
    rewrite (mapM_ext _
               (fun x : json * string * string =>
                  attempt (let '(sq, u, c) := x in
                           summarize_content w config q sq u c)) l)
      by (intros [[sq u] c]; reflexivity).
    rewrite Hrs. reflexivity.
  - rewrite <- Hlen. apply length_valid_results.
  - apply valid_results_dicts.
Qed.

Lemma length_slice_to n s :
  0 <= n -> Py.len (Py.slice_to n s) = Z.min n (Py.len s).
Proof.
  intros Hn. unfold Py.slice_to, Py.len.
  destruct (0 <=? n) eqn:E; [| apply Z.leb_gt in E; lia].
  assert (H : forall m t, String.length (substring 0 m t)
                          = Nat.min m (String.length t)).
  { clear. intros m t. revert m.
    induction t as [| c t IH]; intros m; simpl.
    - destruct m; reflexivity.
    - destruct m; [reflexivity |]. simpl. rewrite IH. reflexivity. }
  rewrite H. lia.
Qed.

Lemma slice_to_prefix n s :
  0 <= n -> exists rest, s = Py.slice_to n s ++ rest.
Proof.
  intros Hn. unfold Py.slice_to.
  destruct (0 <=? n) eqn:E; [| apply Z.leb_gt in E; lia].
  generalize (Z.to_nat n). clear. intros m. revert m.
  induction s as [| c s IH]; intros m; simpl.
  - exists "". destruct m; reflexivity.
  - destruct m.
    + exists (String c s). reflexivity.
    + destruct (IH m) as (rest & Hrest). exists rest. simpl.
      rewrite <- Hrest. reflexivity.
Qed.

(** X10.  With a non-negative [content_snippet_length], every summarizer
    request of a batch carries a prefix of its hit's content of at most
    that many characters, and the whole content when it is no longer. *)
Theorem summarizer_content_is_truncated q l tr r tr' :
  0 <= content_snippet_length config ->
  batch_summarize w config q l tr = (r, tr') ->
  exists sent,
    tr' = (tr ++ sent)%list
    /\ List.length sent = List.length l
    /\ forall i sq u c,
         nth_error l i = Some (sq, u, c) ->
         exists c',
           nth_error sent i
           = Some (GenerateContent (SummarizerPrompt q sq u c'))
           /\ Py.len c' = Z.min (content_snippet_length config) (Py.len c)
           /\ exists rest, c = c' ++ rest.
Proof.
  intros Hn H.
  destruct (batch_summarize_requests q l tr) as (p & Hb & _).
  rewrite Hb in H. inversion H; subst r tr'.
  exists (map (summarizer_request config q) l).
  split; [reflexivity |]. split; [apply length_map |].
  intros i sq u c Hi.
  exists (Py.slice_to (content_snippet_length config) c).
  split; [| split].
  - rewrite (map_nth_error _ _ _ Hi). reflexivity.
  - apply length_slice_to. exact Hn.
  - apply slice_to_prefix. exact Hn.
Qed.

End ClientFacts.

Lemma summarizer_content_is_truncated_run :
  exists r tr',
    batch_summarize world_unparseable
                    {| google_api_key := "g"; exa_api_key := "e";
                       max_urls_per_query := 20; min_relevance_score := 6;
                       max_research_iterations := 1;
                       content_snippet_length := 3 |}
                    "q" [(JStr "q", "u", "abcdef")] [] = (r, tr')
    /\ tr' = [GenerateContent (SummarizerPrompt "q" (JStr "q") "u" "abc")]
    /\ exists sent,
         tr' = ([] ++ sent)%list
         /\ List.length sent = 1%nat
         /\ forall i sq u c,
              nth_error [(JStr "q", "u", "abcdef")] i = Some (sq, u, c) ->
              exists c',
                nth_error sent i
                = Some (GenerateContent (SummarizerPrompt "q" sq u c'))
                /\ Py.len c' = Z.min 3 (Py.len c)
                /\ exists rest, c = c' ++ rest.
Proof.
  eexists _, _. split; [vm_compute; reflexivity |].
  split; [reflexivity |].
  eapply (summarizer_content_is_truncated
            world_unparseable
            {| google_api_key := "g"; exa_api_key := "e";
               max_urls_per_query := 20; min_relevance_score := 6;
               max_research_iterations := 1;
               content_snippet_length := 3 |}
            "q" [(JStr "q", "u", "abcdef")] []).
  - vm_compute. discriminate.
  - vm_compute. reflexivity.
Defined.

(* ================================================================== *)
(** ** The search dict *)

Lemma search_dict_set_strings s v (d : search_dict) :
  Forall (fun qr => is_str (fst qr) = true) d ->
  (forall t, search_dict_get (JStr t) (search_dict_set (JStr s) v d)
             = if String.eqb t s then Some v else search_dict_get (JStr t) d)
  /\ (forall q, In q (map fst (search_dict_set (JStr s) v d))
                <-> q = JStr s \/ In q (map fst d))
  /\ (NoDup (map fst d) -> NoDup (map fst (search_dict_set (JStr s) v d)))
  /\ Forall (fun qr => is_str (fst qr) = true) (search_dict_set (JStr s) v d).
Proof.
  induction 1 as [| [k' v'] d Hk' Hd IH].
  - simpl. split; [| split; [| split]].
    + intros t. reflexivity.
    + intros q. split.
      * intros [<- | []]. left. reflexivity.
      * intros [-> | []]. left. reflexivity.
    + intros _. constructor; [intros [] | constructor].
    + constructor; [reflexivity | constructor].
  - destruct IH as (IHget & IHin & IHnd & IHstr).
    simpl in Hk'. destruct k' as [| | | | t' | |]; try discriminate Hk'.
    simpl. change (Py.key_eqb (JStr s) (JStr t')) with (String.eqb s t').
    destruct (String.eqb s t') eqn:E.
    + apply String.eqb_eq in E. subst t'. simpl. split; [| split; [| split]].
      * intros t. change (Py.key_eqb (JStr t) (JStr s)) with (String.eqb t s).
        destruct (String.eqb t s); reflexivity.
      * intros q. split.
        -- intros [<- | Hin]; [left; reflexivity | right; right; exact Hin].
        -- intros [-> | [<- | Hin]]; [left | left | right]; auto.
      * auto.
      * constructor; [reflexivity | exact Hd].
    + simpl. split; [| split; [| split]].
      * intros t. change (Py.key_eqb (JStr t) (JStr t')) with (String.eqb t t').
        destruct (String.eqb t t') eqn:E2.
        -- apply String.eqb_eq in E2. subst t'.
           rewrite String.eqb_sym, E. reflexivity.
        -- apply IHget.
      * intros q. split.
        -- intros [<- | Hin]; [right; left; reflexivity |].
           apply IHin in Hin. destruct Hin as [-> | Hin]; auto.
        -- intros [-> | [<- | Hin]].
           ++ right. apply IHin. left. reflexivity.
           ++ left. reflexivity.
           ++ right. apply IHin. right. exact Hin.
      * intros Hnd. inversion Hnd as [| ? ? Hnot Hnd']; subst.
        constructor; [| apply IHnd; exact Hnd'].
        intros Hin. apply IHin in Hin. destruct Hin as [Heq | Hin].
        -- inversion Heq; subst. rewrite String.eqb_refl in E. discriminate E.
        -- contradiction.
      * constructor; [reflexivity | exact IHstr].
Qed.

Lemma assign_all_strings (qrs : list (json * list SearchResult)) :
  Forall (fun qr => is_str (fst qr) = true) qrs ->
  forall d : search_dict,
    Forall (fun qr => is_str (fst qr) = true) d ->
    (forall t, search_dict_get (JStr t) (assign_all qrs d)
               = match last_value (JStr t) qrs with
                 | Some x => Some x
                 | None => search_dict_get (JStr t) d
                 end)
    /\ (forall q, In q (map fst (assign_all qrs d))
                  <-> In q (map fst qrs) \/ In q (map fst d))
    /\ (NoDup (map fst d) -> NoDup (map fst (assign_all qrs d))).
Proof.
  induction 1 as [| [k v] qrs Hk Hq IH]; intros d Hd.
  - simpl. split; [| split].
    + intros t. reflexivity.
    + intros q. split; [auto | intros [[] | Hin]; exact Hin].
    + auto.
  - simpl in Hk. destruct k as [| | | | s | |]; try discriminate Hk.
    destruct (search_dict_set_strings s v d Hd) as (Sget & Sin & Snd & Sstr).
    destruct (IH _ Sstr) as (IHget & IHin & IHnd).
    simpl. split; [| split].
    + intros t. rewrite IHget.
      destruct (last_value (JStr t) qrs); [reflexivity |].
      rewrite Sget. change (Py.key_eqb (JStr t) (JStr s)) with (String.eqb t s).
      destruct (String.eqb t s); reflexivity.
    + intros q. split.
      * intros Hin. apply IHin in Hin. destruct Hin as [Hin | Hin]; auto.
        apply Sin in Hin. destruct Hin as [-> | Hin]; auto.
      * intros [[<- | Hin] | Hin]; apply IHin.
        -- right. apply Sin. left. reflexivity.
        -- left. exact Hin.
        -- right. apply Sin. right. exact Hin.
    + intros Hnd. apply IHnd, Snd, Hnd.
Qed.

Lemma collect_search_results_assigns queries qrs (d : search_dict) :
  is_dict queries = false ->
  Forall (fun qr : json * list SearchResult => is_str (fst qr) = true) qrs ->
  collect_search_results queries qrs d = Ok (assign_all qrs d).
Proof.
  intros Hq Hall. revert d.
  induction Hall as [| [k v] qrs Hk _ IH]; intros d; simpl; [reflexivity |].
  rewrite Hq. simpl in Hk. destruct k; try discriminate Hk. simpl. apply IH.
Qed.

Lemma last_value_of_last_occurrence q qs rs i r :
  List.length rs = List.length qs ->
  Forall (fun k => is_str k = true) qs ->
  is_str q = true ->
  nth_error qs i = Some q ->
  (forall j, (i < j)%nat -> nth_error qs j <> Some q) ->
  nth_error rs i = Some r ->
  last_value q (combine qs rs) = Some r.
Proof.
  intros Hlen Hqs Hq. revert rs i Hlen.
  induction Hqs as [| k qs Hk Hqs IH]; intros rs i Hlen Hi Hlast Hr.
  - destruct i; discriminate Hi.
  - destruct rs as [| r0 rs]; [discriminate Hlen |]. simpl in Hlen.
    simpl. destruct i as [| i]; simpl in Hi, Hr.
    + inversion Hi; subst k. inversion Hr; subst r0.
      assert (Hnone : last_value q (combine qs rs) = None).
      { assert (Hno : forall j, nth_error qs j <> Some q).
        { intros j. apply (Hlast (S j)). lia. }
        clear -Hno Hqs Hq. revert rs.
        induction Hqs as [| k qs Hk Hqs IH]; intros rs; [reflexivity |].
        destruct rs as [| r0 rs]; [reflexivity |]. simpl.
        rewrite IH by (intros j; apply (Hno (S j))).
        destruct q; try discriminate Hq. destruct k; try discriminate Hk.
        change (Py.key_eqb (JStr s) (JStr s0)) with (String.eqb s s0).
        destruct (String.eqb s s0) eqn:E; [| reflexivity].
        apply String.eqb_eq in E. subst. exfalso. apply (Hno 0%nat).
        reflexivity. }
      rewrite Hnone.
      destruct q; try discriminate Hq.
      change (Py.key_eqb (JStr s) (JStr s)) with (String.eqb s s).
      rewrite String.eqb_refl. reflexivity.
    + rewrite (IH rs i); [reflexivity | lia | exact Hi | | exact Hr].
      intros j Hj. apply (Hlast (S j)). lia.
Qed.

Section SearchFacts.

Variable w : World.

Lemma search_single_query_hits q tr :
  search_single_query w q tr
  = (Ok (hits_at w (List.length tr) q), (tr ++ [SearchAndContents q])%list).
Proof.
  unfold search_single_query, hits_at.
  destruct (search_and_contents w (List.length tr) q); reflexivity.
Qed.

Lemma search_all_hits qs tr :
  mapM (search_single_query w) qs tr
  = (Ok (hits_from w (List.length tr) qs),
     (tr ++ map SearchAndContents qs)%list).
Proof.
  revert tr. induction qs as [| q qs IH]; intros tr; simpl.
  - rewrite app_nil_r. reflexivity.
  - rewrite (bind_ok _ _ _ _ _ (search_single_query_hits q tr)).
    rewrite (bind_ok _ _ _ _ _ (IH _)). unfold ret.
    rewrite <- app_assoc, length_app. simpl. rewrite Nat.add_1_r.
    reflexivity.
Qed.

Lemma length_hits_from n qs :
  List.length (hits_from w n qs) = List.length qs.
Proof.
  revert n. induction qs as [| q qs IH]; intros n; simpl; [reflexivity |].
  rewrite IH. reflexivity.
Qed.

Lemma nth_hits_from n qs i q :
  nth_error qs i = Some q ->
  nth_error (hits_from w n qs) i = Some (hits_at w (n + i) q).
Proof.
  revert n i. induction qs as [| k qs IH]; intros n i Hi.
  - destruct i; discriminate Hi.
  - destruct i as [| i]; simpl in *.
    + inversion Hi; subst. rewrite Nat.add_0_r. reflexivity.
    + rewrite (IH (S n) i Hi). f_equal. f_equal. lia.
Qed.


Lemma search_multiple_queries_strings qs tr :
  Forall (fun q => is_str q = true) qs ->
  search_multiple_queries w (JList qs) tr
  = (Ok (assign_all (combine qs (hits_from w (List.length tr) qs)) []),
     (tr ++ map SearchAndContents qs)%list).
Proof.
  intros Hqs. unfold search_multiple_queries.
  destruct qs as [| q qs].
  - simpl. rewrite app_nil_r. reflexivity.
  - cbn [Py.truthy negb Py.len_json Py.elements].
    unfold bind at 1. unfold lift at 1.
    unfold bind at 1. unfold lift at 1.
    unfold bind. rewrite search_all_hits. unfold lift.
    rewrite collect_search_results_assigns; [reflexivity | reflexivity |].
    clear -Hqs. generalize (hits_from w (List.length tr) (q :: qs)).
    induction Hqs as [| k ks Hk _ IH]; intros rs; [constructor |].
    destruct rs as [| r rs]; [constructor |].
    simpl. constructor; [exact Hk | apply IH].
Qed.

Lemma combine_keys (qs : list json) (rs : list (list SearchResult)) :
  List.length rs = List.length qs -> map fst (combine qs rs) = qs.
Proof.
  revert rs. induction qs as [| q qs IH]; intros rs Hlen; [reflexivity |].
  destruct rs as [| r rs]; [discriminate Hlen |].
  simpl. rewrite IH by (simpl in Hlen; lia). reflexivity.
Qed.

Lemma combine_strings (qs : list json) (rs : list (list SearchResult)) :
  Forall (fun q => is_str q = true) qs ->
  Forall (fun qr : json * list SearchResult => is_str (fst qr) = true)
         (combine qs rs).
Proof.
  intros Hqs. revert rs.
  induction Hqs as [| k ks Hk _ IH]; intros rs; [constructor |].
  destruct rs as [| r rs]; [constructor |].
  simpl. constructor; [exact Hk | apply IH].
Qed.

(** X11.  For a list of query strings [search_multiple_queries] never
    raises: it issues exactly one search per query, in the order of the
    list and repeated queries included, and returns a dict whose keys are
    the distinct queries of the list. *)
Theorem search_multiple_queries_on_strings qs tr :
  Forall (fun q => is_str q = true) qs ->
  exists d,
    search_multiple_queries w (JList qs) tr
    = (Ok d, (tr ++ map SearchAndContents qs)%list)
    /\ (forall q, In q (map fst d) <-> In q qs)
    /\ NoDup (map fst d).
Proof.
  intros Hqs. eexists. split; [apply search_multiple_queries_strings, Hqs |].
  destruct (assign_all_strings
              (combine qs (hits_from w (List.length tr) qs))
              (combine_strings _ _ Hqs) [] (Forall_nil _))
    as (_ & Hin & Hnd).
  rewrite combine_keys in Hin by apply length_hits_from.
  split.
  - intros q. rewrite Hin. simpl. tauto.
  - apply Hnd. constructor.
Qed.

(** X12.  When a query string occurs more than once in the list, the dict
    keeps the hits of the last search made for it: the hits of the earlier
    searches for the same query are dropped. *)
Theorem search_multiple_queries_last_wins qs tr d tr' i q :
  Forall (fun q => is_str q = true) qs ->
  search_multiple_queries w (JList qs) tr = (Ok d, tr') ->
  nth_error qs i = Some q ->
  (forall j, (i < j)%nat -> nth_error qs j <> Some q) ->
  search_dict_get q d = Some (hits_at w (List.length tr + i) q).
Proof.
  intros Hqs H Hi Hlast.
  rewrite (search_multiple_queries_strings _ _ Hqs) in H.
  inversion H; subst d tr'. clear H.
  assert (Hq : is_str q = true).
  { rewrite Forall_forall in Hqs. apply Hqs. eapply nth_error_In. exact Hi. }
  destruct (assign_all_strings
              (combine qs (hits_from w (List.length tr) qs))
              (combine_strings _ _ Hqs) [] (Forall_nil _))
    as (Hget & _ & _).
  destruct q as [| | | | s | |]; try discriminate Hq.
  rewrite Hget.
  rewrite (last_value_of_last_occurrence
             (JStr s) qs _ i (hits_at w (List.length tr + i) (JStr s)));
    try assumption; try reflexivity.
  - apply length_hits_from.
  - apply nth_hits_from. exact Hi.
Qed.

End SearchFacts.

Lemma search_multiple_queries_on_strings_run :
  exists d,
    search_multiple_queries world_repeated_query (JList [JStr "a"; JStr "a"])
                            [GenerateContent (QueryGenerationPrompt "q")]
    = (Ok d,
       ([GenerateContent (QueryGenerationPrompt "q")]
        ++ map SearchAndContents [JStr "a"; JStr "a"])%list)
    /\ (forall q, In q (map fst d) <-> In q [JStr "a"; JStr "a"])
    /\ NoDup (map fst d).
Proof.
  apply (search_multiple_queries_on_strings world_repeated_query).
  repeat constructor.
Defined.

(** The query "a" is searched twice; the first search finds a hit and the
    second finds none: the dict holds no hit for "a". *)
Lemma search_multiple_queries_last_wins_run :
  hits_at world_repeated_query 1 (JStr "a") = [hit "u1" "c1"]
  /\ exists d tr',
       search_multiple_queries world_repeated_query
                               (JList [JStr "a"; JStr "a"])
                               [GenerateContent (QueryGenerationPrompt "q")]
       = (Ok d, tr')
       /\ search_dict_get (JStr "a") d = Some []
       /\ search_dict_get (JStr "a") d
          = Some (hits_at world_repeated_query
                          (List.length
                             [GenerateContent (QueryGenerationPrompt "q")] + 1)
                          (JStr "a")).
Proof.
  split; [reflexivity |].
  eexists _, _. split; [vm_compute; reflexivity |].
  split; [reflexivity |].
  eapply (search_multiple_queries_last_wins
            world_repeated_query [JStr "a"; JStr "a"]
            [GenerateContent (QueryGenerationPrompt "q")] _ _ 1%nat).
  - repeat constructor.
  - vm_compute. reflexivity.
  - reflexivity.
  - intros [| [| [| j]]] Hj; try lia; discriminate.
Defined.

(* ================================================================== *)
(** ** More on the iteration engine *)

Section EngineFacts.

Variable w : World.
Variable config : Config.


Lemma generate_queries_decoded q tr text v :
  generate_content w (List.length tr) (QueryGenerationPrompt q) = Some text ->
  json_loads w text = Some v ->
  generate_queries w q tr
  = (match v with
     | JDict _ => Py.get v "queries" (JList [])
     | _ => Raise AttributeError
     end,
     (tr ++ [GenerateContent (QueryGenerationPrompt q)])%list).
Proof.
  intros Hcall Hdec.
  unfold generate_queries, try_except, bind, _call_model, loads, lift.
  rewrite Hcall, Hdec. destruct v; reflexivity.
Qed.

(** X13.  When the expander's reply is an object without a [queries]
    entry, or with an empty list there, the iteration makes no search and
    no summarizer call: besides the expansion it only calls the
    synthesizer, with no summaries, and an iteration that completes has no
    queries, no hits and no summaries. *)
Theorem iteration_without_queries q k tr text fields r tr' :
  generate_content w (List.length tr) (QueryGenerationPrompt q) = Some text ->
  json_loads w text = Some (JDict fields) ->
  Py.get (JDict fields) "queries" (JList []) = Ok (JList []) ->
  _execute_iteration w config q k tr = (r, tr') ->
  tr' = (tr ++ [ GenerateContent (QueryGenerationPrompt q);
                 GenerateContent (SynthesisPrompt q []) ])%list
  /\ forall it,
       r = Ok it ->
       queries it = JList [] /\ search_results it = [] /\ summaries it = [].
Proof.
  intros Hcall Hdec Hget H.
  pose proof (generate_queries_decoded q tr text _ Hcall Hdec) as Hq.
  rewrite Hget in Hq.
  unfold _execute_iteration in H.
  rewrite (bind_ok _ _ _ _ _ Hq) in H.
  cbn in H. unfold bind in H.
  destruct (synthesize_research w q [] _) as [[syn | e] tr4] eqn:Hsyn;
    apply synthesize_research_trace in Hsyn; subst tr4;
    inversion H; subst r tr'; clear H.
  - split; [rewrite <- app_assoc; reflexivity |].
    intros it Hit. inversion Hit. repeat split.
  - split; [rewrite <- app_assoc; reflexivity |].
    intros it Hit. discriminate Hit.
Qed.

(** X14.  An expander reply that decodes to something other than an
    object is not replaced by the fallback queries: [generate_queries]
    raises an [AttributeError], which leaves [research] after that single
    call. *)
Theorem non_object_expansion_raises its q tr text v :
  0 < max_research_iterations config ->
  generate_content w (List.length tr) (QueryGenerationPrompt q) = Some text ->
  json_loads w text = Some v ->
  is_dict v = false ->
  generate_queries w q tr
  = (Raise AttributeError,
     (tr ++ [GenerateContent (QueryGenerationPrompt q)])%list)
  /\ research w config its q tr
     = (Raise AttributeError,
        (tr ++ [GenerateContent (QueryGenerationPrompt q)])%list).
Proof.
  intros Hmax Hcall Hdec Hv.
  pose proof (generate_queries_decoded q tr text v Hcall Hdec) as Hq.
  assert (Hq' : generate_queries w q tr
                = (Raise AttributeError,
                   (tr ++ [GenerateContent (QueryGenerationPrompt q)])%list)).
  { rewrite Hq. destruct v; try reflexivity. discriminate Hv. }
  split; [exact Hq' |].
  apply research_first_iteration_raises; [exact Hmax |].
  unfold _execute_iteration. apply bind_raise. exact Hq'.
Qed.

Lemma hits_from_all_fail n qs :
  (forall m query, search_and_contents w m query = None) ->
  Forall (fun r => r = []) (hits_from w n qs).
Proof.
  intros Hfail. revert n. induction qs as [| q qs IH]; intros n; simpl.
  - constructor.
  - constructor; [| apply IH]. unfold hits_at. rewrite Hfail. reflexivity.
Qed.

Lemma search_dict_set_empty k (d : search_dict) :
  Forall (fun qr => snd qr = []) d ->
  Forall (fun qr => snd qr = []) (search_dict_set k [] d).
Proof.
  induction 1 as [| [k' v'] d Hv Hd IH]; simpl.
  - constructor; [reflexivity | constructor].
  - destruct (Py.key_eqb k k').
    + constructor; [reflexivity | assumption].
    + constructor; assumption.
Qed.

Lemma collect_search_results_empty queries qrs (d d' : search_dict) :
  Forall (fun qr : json * list SearchResult => snd qr = []) qrs ->
  Forall (fun qr => snd qr = []) d ->
  collect_search_results queries qrs d = Ok d' ->
  Forall (fun qr => snd qr = []) d'.
Proof.
  intros Hall. revert d.
  induction Hall as [| [k v] qrs Hv _ IH]; intros d Hd H; simpl in H.
  - inversion H; subst. exact Hd.
  - destruct (is_dict queries); [discriminate H |].
    destruct (Py.hashable k); [| discriminate H].
    simpl in Hv. subst v. eapply IH; [| exact H].
    apply search_dict_set_empty. exact Hd.
Qed.

Lemma search_multiple_queries_all_fail qs tr d tr' :
  (forall m query, search_and_contents w m query = None) ->
  search_multiple_queries w qs tr = (Ok d, tr') ->
  Forall (fun qr => snd qr = []) d.
Proof.
  intros Hfail H. unfold search_multiple_queries in H.
  destruct (negb (Py.truthy qs)).
  - inversion H. constructor.
  - apply bind_ok_inv in H. destruct H as (n & tr1 & _ & H).
    apply bind_ok_inv in H. destruct H as (ql & tr2 & _ & H).
    apply bind_ok_inv in H. destruct H as (rs & tr3 & Hrs & H).
    apply lift_ok_inv in H. destruct H as [H _].
    rewrite search_all_hits in Hrs. inversion Hrs; subst rs.
    eapply collect_search_results_empty; [| constructor | exact H].
    pose proof (hits_from_all_fail (List.length tr2) ql Hfail) as Hr.
    clear -Hr. revert Hr. generalize (hits_from w (List.length tr2) ql).
    induction ql as [| k ql IH]; intros rs Hr; [constructor |].
    destruct rs as [| r rs]; [constructor |].
    inversion Hr; subst. simpl. constructor; [reflexivity | apply IH; assumption].
Qed.

(** X15.  When every search call fails, an iteration that completes has
    no search hits and no summaries, and its synthesis was asked for with
    no summaries at all: the failed searches do not stop the iteration. *)
Theorem iteration_with_failing_searches q k tr it tr' :
  (forall m query, search_and_contents w m query = None) ->
  _execute_iteration w config q k tr = (Ok it, tr') ->
  search_results it = []
  /\ summaries it = []
  /\ exists tr3, tr' = (tr3 ++ [GenerateContent (SynthesisPrompt q [])])%list.
Proof.
  intros Hfail H. apply execute_iteration_inv in H.
  destruct H as (qs & tr1 & d & tr2 & produced & tr3 & _ & Hd & Hb & _
                 & Hsyn & _ & _ & Hhits & Hs).
  pose proof (search_multiple_queries_all_fail _ _ _ _ Hfail Hd) as Hempty.
  assert (Hflat : flat_map (fun qr : json * list SearchResult => snd qr) d = []).
  { clear -Hempty. induction Hempty as [| [k0 v] d Hv _ IH]; [reflexivity |].
    simpl in *. subst v. exact IH. }
  assert (Hl : flatten_search_results d = []).
  { apply length_zero_iff_nil.
    rewrite length_flatten_search_results, Hflat. reflexivity. }
  rewrite Hl in Hb. inversion Hb; subst produced tr3.
  rewrite Hhits, Hs, Hflat. split; [reflexivity |]. split; [reflexivity |].
  exists tr2. eapply synthesize_research_trace. exact Hsyn.
Qed.


(** An iteration of the engine stores no more summaries than it has
    search hits. *)
Lemma execute_iteration_summaries_bound q k tr it tr' :
  _execute_iteration w config q k tr = (Ok it, tr') ->
  (List.length (summaries it) <= List.length (search_results it))%nat.
Proof.
  intros H. apply execute_iteration_inv in H.
  destruct H as (qs0 & tr1 & d & tr2 & produced & tr3 & _ & _ & Hb & _
                 & _ & _ & _ & Hhits & Hs).
  destruct (batch_summarize_requests w config q (flatten_search_results d) tr2)
    as (p & Hb' & Hlen & _).
  rewrite Hb in Hb'. inversion Hb'; subst p.
  rewrite Hs, Hhits, length_map, <- length_flatten_search_results.
  pose proof (filter_length_le response_relevant (dicts_of produced)).
  pose proof (length_dicts_of produced). lia.
Qed.

End EngineFacts.

Lemma length_flat_map_summaries_le (its : list ResearchIteration) :
  (forall it, In it its ->
              (List.length (summaries it) <= List.length (search_results it))%nat) ->
  Z.of_nat (List.length (flat_map summaries its)) <= hit_count_sum its.
Proof.
  induction its as [| it its IH]; intros H; simpl.
  - unfold hit_count_sum. simpl. lia.
  - rewrite length_app. unfold hit_count_sum in *. simpl.
    assert (H1 := H it (or_introl eq_refl)).
    assert (H2 : Z.of_nat (List.length (flat_map summaries its))
                 <= fold_right Z.add 0
                      (map (fun it0 => Z.of_nat (List.length (search_results it0)))
                           its)).
    { apply IH. intros it0 Hin. apply H. right. exact Hin. }
    lia.
Qed.

(** X17.  No iteration of a returned report stores more summaries than
    it has search hits, so the [total_sources] the controller writes into
    the final synthesis never exceeds the [total_sources] of the report.
    The history the run started from is asked to satisfy the same. *)
Theorem summaries_never_outnumber_hits w config its q tr report its' tr' :
  research w config its q tr = (Ok (report, its'), tr') ->
  (forall it, In it its ->
              (List.length (summaries it) <= List.length (search_results it))%nat) ->
  (forall it, In it (iterations report) ->
              (List.length (summaries it) <= List.length (search_results it))%nat)
  /\ exists n,
       Py.get (final_synthesis report) "total_sources" JNull = Ok (JInt n)
       /\ n <= total_sources report.
Proof.
  intros H Hold.
  assert (Hall : forall it, In it (iterations report) ->
                   (List.length (summaries it)
                    <= List.length (search_results it))%nat).
  { pose proof H as H0. apply research_new_iterations in H0.
    destruct H0 as (new & Hits & _ & Hnew & _).
    intros it Hit. rewrite Hits in Hit. apply in_app_or in Hit.
    destruct Hit as [Hit | Hit]; [apply Hold; exact Hit |].
    destruct (each_numbered_In _ _ _ _ Hnew Hit)
      as (k & (tr0 & tr1 & Hrun) & _).
    eapply execute_iteration_summaries_bound. exact Hrun. }
  split; [exact Hall |].
  exists (Z.of_nat (List.length (flat_map summaries (iterations report)))).
  pose proof H as H0. apply research_inv in H0.
  destruct H0 as (n & tr1 & _ & Hfs & _ & Hits & Htot & _).
  apply create_final_synthesis_inv in Hfs. destruct Hfs as (d0 & _ & Hfs).
  split.
  - rewrite Hfs, Hits. unfold Py.get.
    rewrite lookup_set_item_other by discriminate.
    rewrite lookup_set_item_same, length_all_summaries. reflexivity.
  - rewrite Htot, sum_sources_spec, <- Hits.
    apply length_flat_map_summaries_le. exact Hall.
Qed.

Lemma iteration_without_queries_run :
  exists r tr',
    _execute_iteration world_no_queries (demo_config 1) "q" 1 [] = (r, tr')
    /\ tr' = ([] ++ [ GenerateContent (QueryGenerationPrompt "q");
                      GenerateContent (SynthesisPrompt "q" []) ])%list
    /\ forall it,
         r = Ok it ->
         queries it = JList [] /\ search_results it = [] /\ summaries it = [].
Proof.
  eexists _, _. split; [vm_compute; reflexivity |].
  eapply (iteration_without_queries
            world_no_queries (demo_config 1) "q" 1 [] "no-queries"
            [("note", JStr "none")]).
  - reflexivity.
  - reflexivity.
  - reflexivity.
  - vm_compute. reflexivity.
Defined.

Lemma non_object_expansion_run :
  generate_queries world_list_queries "q" []
  = (Raise AttributeError,
     ([] ++ [GenerateContent (QueryGenerationPrompt "q")])%list)
  /\ research world_list_queries (demo_config 3) [] "q" []
     = (Raise AttributeError,
        ([] ++ [GenerateContent (QueryGenerationPrompt "q")])%list).
Proof.
  apply (non_object_expansion_raises
           world_list_queries (demo_config 3) [] "q" [] "a-list" (JList [JInt 1]));
    reflexivity.
Defined.

Lemma iteration_with_failing_searches_run :
  exists it tr',
    _execute_iteration world_search_down (demo_config 1) "q" 1 [] = (Ok it, tr')
    /\ queries it = JList [JStr "a"]
    /\ search_results it = []
    /\ summaries it = []
    /\ exists tr3, tr' = (tr3 ++ [GenerateContent (SynthesisPrompt "q" [])])%list.
Proof.
  eexists _, _. split; [vm_compute; reflexivity |].
  split; [reflexivity |].
  eapply (iteration_with_failing_searches
            world_search_down (demo_config 1) "q" 1 []).
  - intros [| [| [| m]]] query; reflexivity || (simpl; destruct m; reflexivity).
  - vm_compute. reflexivity.
Defined.


Lemma summaries_never_outnumber_hits_run :
  exists report its' tr',
    research world_metadata (demo_config 1) [] "q" []
    = (Ok (report, its'), tr')
    /\ (forall it, In it (iterations report) ->
                   (List.length (summaries it)
                    <= List.length (search_results it))%nat)
    /\ exists n,
         Py.get (final_synthesis report) "total_sources" JNull = Ok (JInt n)
         /\ n <= total_sources report.
Proof.
  eexists _, _, _. split; [vm_compute; reflexivity |].
  eapply (summaries_never_outnumber_hits
            world_metadata (demo_config 1) [] "q" []).
  - vm_compute. reflexivity.
  - intros it [].
Defined.

(* ================================================================== *)
(** ** The preview, the report file and the environment check *)

Lemma substring_of_append s t :
  substring 0 (String.length s) (s ++ t) = s.
Proof.
  induction s as [| c s IH]; simpl.
  - destruct t; reflexivity.
  - rewrite IH. reflexivity.
Qed.

(** X18.  The preview [to_dict] writes for a hit's content never has more
    than 503 characters, agrees with the content on the first 500, and is
    left as it is when previewed again. *)
Theorem content_preview_bounded_idempotent content :
  Py.len (content_preview content) <= 503
  /\ Py.slice_to 500 (content_preview content) = Py.slice_to 500 content
  /\ content_preview (content_preview content) = content_preview content.
Proof.
  destruct (Z_le_gt_dec (Py.len content) 500) as [Hshort | Hlong].
  - rewrite (content_preview_short _ Hshort).
    split; [lia |]. split; [reflexivity |].
    apply content_preview_short. exact Hshort.
  - destruct (content_preview_long content) as [Hp Hlen]; [lia |].
    assert (H500 : String.length (substring 0 500 content) = 500%nat).
    { apply length_substring_prefix. unfold Py.len in Hlong. lia. }
    assert (Hcut : Py.slice_to 500 (content_preview content)
                   = substring 0 500 content).
    { rewrite Hp. change (Py.slice_to 500 ?s) with (substring 0 500 s).
      rewrite <- H500 at 1. apply substring_of_append. }
    split; [lia |]. split; [exact Hcut |].
    destruct (content_preview_long (content_preview content)) as [Hpp _];
      [lia |].
    rewrite Hpp.
    change (substring 0 500 (content_preview content))
      with (Py.slice_to 500 (content_preview content)).
    rewrite Hcut. symmetry. exact Hp.
Qed.


Section SaveReportFacts.

Variable isalnum : ascii -> bool.
Variable isspace : ascii -> bool.




End SaveReportFacts.

(** The query below has a slash, an exclamation mark and trailing spaces:
    they are dropped, and the inner spaces become underscores. *)
Example safe_query_example :
  safe_query ascii_isalnum ascii_isspace "AI in health/care!  "
  = "AI_in_healthcare".
Proof. reflexivity. Qed.


(* ================================================================== *)
(** ** A run on a fresh workflow *)

(** X21.  [run_research] builds a new workflow for its query, so with a
    maximum of at least 1 the report it returns has between 1 and the
    maximum number of iterations, numbered 1, 2, ... without a gap, and
    the workflow it leaves holds exactly these. *)
Theorem run_research_on_fresh_workflow w config q tr report its' tr' :
  1 <= max_research_iterations config ->
  run_research w config q tr = (Ok (report, its'), tr') ->
  1 <= Z.of_nat (List.length (iterations report))
    <= max_research_iterations config
  /\ numbered_from 1 (iterations report)
  /\ its' = iterations report.
Proof.
  intros Hmax H.
  destruct (run_research_iteration_bounds w config q tr report its' tr' Hmax H)
    as [Hlen Hnum].
  split; [exact Hlen |]. split; [exact Hnum |].
  unfold run_research in H.
  apply bind_ok_inv in H. destruct H as (its & tr0 & _ & H).
  apply research_inv in H.
  destruct H as (n & tr1 & _ & _ & _ & Hits & _). symmetry. exact Hits.
Qed.

Lemma run_research_on_fresh_workflow_run :
  exists report its' tr',
    run_research world_low (demo_config 3) "q" [] = (Ok (report, its'), tr')
    /\ map iteration_number (iterations report) = [1; 2; 3]
    /\ 1 <= Z.of_nat (List.length (iterations report))
         <= max_research_iterations (demo_config 3)
    /\ numbered_from 1 (iterations report)
    /\ its' = iterations report.
Proof.
  eexists _, _, _. split; [vm_compute; reflexivity |].
  split; [reflexivity |].
  eapply (run_research_on_fresh_workflow world_low (demo_config 3) "q" []).
  - vm_compute. discriminate.
  - vm_compute. reflexivity.
Defined.

(* ================================================================== *)
(** ** Replies the code does not degrade *)

(** C4, as the specification states it, fails: a final synthesis reply
    that [json.loads] rejects with a [RecursionError] is unparseable, yet
    the run raises instead of returning a report. *)
Lemma deep_final_synthesis_raises :
  json_loads world_deep_final "<<nested too deep>>" = None
  /\ research world_deep_final (demo_config 1) [] "q" []
     = (Raise RecursionError,
        [ GenerateContent (QueryGenerationPrompt "q");
          SearchAndContents (JStr "a");
          GenerateContent (SynthesisPrompt "q" []);
          GenerateContent (SynthesisPrompt "q" []) ]).
Proof. split; reflexivity. Qed.

(** C5, as the specification states it, fails: an expander reply that
    [json.loads] rejects with a plain [ValueError] is unparseable, yet
    [generate_queries] raises instead of returning the fallback queries,
    and so does the run. *)
Lemma long_integer_expansion_raises :
  json_loads world_long_integer "<<integer too long>>" = None
  /\ generate_queries world_long_integer "q" []
     = (Raise ValueError, [GenerateContent (QueryGenerationPrompt "q")])
  /\ research world_long_integer (demo_config 1) [] "q" []
     = (Raise ValueError, [GenerateContent (QueryGenerationPrompt "q")]).
Proof. repeat split. Qed.


(* ================================================================== *)
(** ** Calls that raise *)

Section RaisingCalls.

Variable w : World.
Variable config : Config.

Local Abbreviation max := (max_research_iterations config).

(** What one task of the batch comes to. *)
Lemma summarize_content_outcome q t tr :
  exists r,
    summarize_content w config q (fst (fst t)) (snd (fst t)) (snd t) tr
    = (r, (tr ++ [summarizer_request config q t])%list)
    /\ valid_result r = kept_summary w config q (List.length tr) t.
Proof.
  unfold summarize_content, try_except, bind, _call_model, loads,
    kept_summary, summarizer_request.
  destruct (generate_content w (List.length tr) _) as [text |].
  - destruct (json_loads w text) as [v |]; simpl.
    + exists (Ok v). split; reflexivity.
    + destruct (json_failure w text); simpl; eexists; split; reflexivity.
  - simpl. eexists. split; reflexivity.
Qed.

Lemma gather_kept q l tr :
  exists rs,
    mapM (fun t : json * string * string =>
            let '(sq, u, c) := t in
            attempt (summarize_content w config q sq u c)) l tr
    = (Ok rs, (tr ++ map (summarizer_request config q) l)%list)
    /\ valid_results rs = kept_from w config q (List.length tr) l.
Proof.
  revert tr. induction l as [| t l IH]; intros tr.
  - exists []. simpl. rewrite app_nil_r. split; reflexivity.
  - destruct (summarize_content_outcome q t tr) as (r & Hr & Hv).
    destruct (IH (tr ++ [summarizer_request config q t])%list)
      as (rs & Hrs & Hk).
    exists (r :: rs). split.
    + cbn [mapM]. unfold bind at 1. destruct t as [[sq u] c].
      unfold attempt at 1. simpl in Hr. rewrite Hr.
      unfold bind at 1. rewrite Hrs. unfold ret.
      rewrite <- app_assoc. reflexivity.
    + cbn [valid_results kept_from]. rewrite Hv, Hk.
      rewrite length_app, Nat.add_1_r. reflexivity.
Qed.

(** The batch returns the summaries of the calls that returned an object,
    in the order of the hits. *)
Lemma batch_summarize_kept q l tr :
  batch_summarize w config q l tr
  = (Ok (kept_from w config q (List.length tr) l),
     (tr ++ map (summarizer_request config q) l)%list).
Proof.
  destruct (gather_kept q l tr) as (rs & Hrs & Hk).
  unfold batch_summarize, bind. rewrite Hrs, Hk. reflexivity.
Qed.

Lemma In_kept_from q n l v :
  In v (kept_from w config q n l)
  <-> exists i t,
        nth_error l i = Some t
        /\ kept_summary w config q (n + i) t = Some v.
Proof.
  revert n. induction l as [| t l IH]; intros n; simpl.
  - split; [intros [] | intros (i & t & Hi & _); destruct i; discriminate Hi].
  - split.
    + intros Hin.
      destruct (kept_summary w config q n t) as [v0 |] eqn:E.
      * destruct Hin as [<- | Hin].
        -- exists 0%nat, t. rewrite Nat.add_0_r. split; [reflexivity | exact E].
        -- apply IH in Hin. destruct Hin as (i & t' & Hi & Hk).
           exists (S i), t'. rewrite Nat.add_succ_r. split; assumption.
      * apply IH in Hin. destruct Hin as (i & t' & Hi & Hk).
        exists (S i), t'. rewrite Nat.add_succ_r. split; assumption.
    + intros (i & t' & Hi & Hk). destruct i as [| i]; simpl in Hi.
      * inversion Hi; subst t'. rewrite Nat.add_0_r in Hk. rewrite Hk.
        left. reflexivity.
      * rewrite Nat.add_succ_r in Hk.
        assert (Hin : In v (kept_from w config q (S n) l)).
        { apply IH. exists i, t'. split; assumption. }
        destruct (kept_summary w config q n t); [right |]; exact Hin.
Qed.

Lemma kept_summary_some q n t v :
  kept_summary w config q n t = Some v
  <-> exists p text,
        summarizer_request config q t = GenerateContent p
        /\ generate_content w n p = Some text
        /\ json_loads w text = Some v
        /\ is_dict v = true.
Proof.
  unfold kept_summary, summarizer_request. split.
  - destruct (generate_content w n _) as [text |] eqn:Hg; [| discriminate].
    destruct (json_loads w text) as [v0 |] eqn:Hl; [| discriminate].
    destruct (is_dict v0) eqn:Hd; [| discriminate].
    intros H. inversion H; subst v0.
    eexists _, text. repeat split; eassumption || reflexivity.
  - intros (p & text & Hp & Hg & Hl & Hd). inversion Hp; subst p.
    rewrite Hg, Hl, Hd. reflexivity.
Qed.

(** A turn of the loop that neither raises nor stops. *)
Lemma research_loop_continues fuel q c its tr it tr1 :
  _execute_iteration w config q (c + 1) tr = (Ok it, tr1) ->
  spec_stop_condition 7 max (c + 1) (synthesis_result it) = Ok false ->
  research_loop w config (S fuel) q c its tr
  = research_loop w config fuel q (c + 1) (its ++ [it])%list tr1.
Proof.
  intros Hit Hstop. unfold spec_stop_condition in Hstop.
  destruct (Py.get (synthesis_result it) "needs_more_research" (JBool false))
    as [nm | e] eqn:Hnm; [| discriminate Hstop]. cbn [rbind] in Hstop.
  destruct (Py.get (synthesis_result it) "confidence_score" (JInt 0))
    as [cf | e] eqn:Hcf; [| discriminate Hstop]. cbn [rbind] in Hstop.
  destruct (Py.ge_int cf 7) as [high | e] eqn:Hhigh; [| discriminate Hstop].
  cbn [rbind] in Hstop. injection Hstop as Hb.
  apply orb_false_iff in Hb. destruct Hb as [Hconf Hge].
  assert (Hlt : (c <? max) = true).
  { apply Z.ltb_lt. rewrite Z.geb_leb in Hge. apply Z.leb_gt in Hge. lia. }
  cbn [research_loop]. rewrite Hlt.
  rewrite (bind_ok _ _ _ _ _ Hit).
  unfold bind at 1. unfold lift at 1. rewrite Hnm.
  unfold bind at 1. unfold lift at 1. rewrite Hcf.
  unfold bind at 1. unfold lift at 1. rewrite Hhigh.
  rewrite Hconf, Hge. reflexivity.
Qed.

Lemma loop_reaches_unfold q its tr k its_k tr_k :
  loop_reaches w config q its tr k its_k tr_k ->
  forall fuel,
    research_loop w config (k + fuel) q 0 its tr
    = research_loop w config fuel q (Z.of_nat k) its_k tr_k.
Proof.
  induction 1 as [| k its_k tr_k it tr1 _ IH Hit Hstop]; intros fuel.
  - reflexivity.
  - replace (S k + fuel)%nat with (k + S fuel)%nat by lia.
    rewrite IH.
    replace (Z.of_nat (S k)) with (Z.of_nat k + 1) in * by lia.
    apply research_loop_continues; assumption.
Qed.

(** An exception an iteration raises leaves [research], at whatever turn
    of the loop. *)
Lemma research_raises_at its q tr k its_k tr_k e tr1 :
  loop_reaches w config q its tr k its_k tr_k ->
  Z.of_nat k < max ->
  _execute_iteration w config q (Z.of_nat k + 1) tr_k = (Raise e, tr1) ->
  research w config its q tr = (Raise e, tr1).
Proof.
  intros Hreach Hlt Hit. unfold research. apply bind_raise.
  replace (S (Z.to_nat max)) with (k + S (Z.to_nat max - k))%nat by lia.
  rewrite (loop_reaches_unfold _ _ _ _ _ _ Hreach).
  cbn [research_loop]. apply Z.ltb_lt in Hlt. rewrite Hlt.
  apply bind_raise. exact Hit.
Qed.

End RaisingCalls.

(** C2, amended.  A search call that raises is turned into an empty hit
    list; a summarizer call that raises is dropped from its batch, which
    keeps the summaries of all the calls that returned an object: neither
    leaves the iteration engine.  A model call that raises during query
    expansion or during the synthesis of an iteration, at whatever turn of
    the loop, or during the final synthesis, is re-raised by [_call_model]
    and leaves [research]; a missing credential leaves [run_research] as a
    [ValueError] before any call is made. *)
Theorem transient_failure_policy w config :
  (forall query tr,
      search_and_contents w (List.length tr) query = None ->
      search_single_query w query tr
      = (Ok [], (tr ++ [SearchAndContents query])%list))
  /\ (forall q l tr,
         exists produced,
           batch_summarize w config q l tr
           = (Ok produced, (tr ++ map (summarizer_request config q) l)%list)
           /\ forall v,
                In v produced
                <-> exists i t p text,
                      nth_error l i = Some t
                      /\ summarizer_request config q t = GenerateContent p
                      /\ generate_content w (List.length tr + i) p = Some text
                      /\ json_loads w text = Some v
                      /\ is_dict v = true)
  /\ (forall its q tr k its_k tr_k,
         loop_reaches w config q its tr k its_k tr_k ->
         Z.of_nat k < max_research_iterations config ->
         generate_content w (List.length tr_k) (QueryGenerationPrompt q) = None ->
         research w config its q tr
         = (Raise ModelError,
            (tr_k ++ [GenerateContent (QueryGenerationPrompt q)])%list))
  /\ (forall its q tr k its_k tr_k qs d produced tr3,
         loop_reaches w config q its tr k its_k tr_k ->
         Z.of_nat k < max_research_iterations config ->
         reaches_synthesis w config q tr_k qs d produced tr3 ->
         generate_content w (List.length tr3) (SynthesisPrompt q produced)
         = None ->
         research w config its q tr
         = (Raise ModelError,
            (tr3 ++ [GenerateContent (SynthesisPrompt q produced)])%list))
  /\ (forall its q tr n its1 tr1,
         research_loop w config (S (Z.to_nat (max_research_iterations config)))
                       q 0 its tr
         = (Ok (n, its1), tr1) ->
         generate_content w (List.length tr1)
                          (SynthesisPrompt q (all_summaries its1)) = None ->
         research w config its q tr
         = (Raise ModelError,
            (tr1 ++ [GenerateContent
                       (SynthesisPrompt q (all_summaries its1))])%list))
  /\ (forall q tr,
         google_api_key config = "" \/ exa_api_key config = "" ->
         run_research w config q tr = (Raise ValueError, tr)).
Proof.
  repeat apply conj.
  - intros query tr Hs. unfold search_single_query. rewrite Hs. reflexivity.
  - intros q l tr. exists (kept_from w config q (List.length tr) l).
    split; [apply batch_summarize_kept |].
    intros v. rewrite In_kept_from. split.
    + intros (i & t & Hi & Hk). apply kept_summary_some in Hk.
      destruct Hk as (p & text & Hp & Hg & Hl & Hd).
      exists i, t, p, text. repeat split; assumption.
    + intros (i & t & p & text & Hi & Hp & Hg & Hl & Hd).
      exists i, t. split; [exact Hi |]. apply kept_summary_some.
      exists p, text. repeat split; assumption.
  - intros its q tr k its_k tr_k Hreach Hlt Hcall.
    eapply research_raises_at; [exact Hreach | exact Hlt |].
    unfold _execute_iteration. apply bind_raise.
    apply generate_queries_model_error. exact Hcall.
  - intros its q tr k its_k tr_k qs d produced tr3 Hreach Hlt Hsynth Hcall.
    eapply research_raises_at; [exact Hreach | exact Hlt |].
    rewrite (execute_iteration_from_synthesis w config q _ tr_k _ _ _ _ Hsynth).
    rewrite (synthesize_research_model_error w q _ tr3 Hcall). reflexivity.
  - intros its q tr n its1 tr1 Hloop Hcall.
    pose proof (synthesize_research_model_error w q _ tr1 Hcall) as Hsyn.
    unfold research. rewrite (bind_ok _ _ _ _ _ Hloop). cbn [snd].
    apply bind_raise. unfold _create_final_synthesis.
    apply bind_raise. exact Hsyn.
  - intros q tr Hkey. unfold run_research. apply bind_raise.
    unfold lift, init_workflow. destruct Hkey as [-> | ->].
    + reflexivity.
    + destruct (String.eqb (google_api_key config) ""); reflexivity.
Qed.

(** The runs below: a failing search gives no hits; of two summarizer
    calls the first raises and the second is kept; the expansion call of a
    second iteration, the synthesis call of a second iteration and the
    final synthesis call raise and the run raises with them; an empty
    credential stops the run before any call. *)
Lemma transient_failure_policy_runs :
  search_single_query world_unparseable
    (JStr "comprehensive analysis of q")
    [GenerateContent (QueryGenerationPrompt "q"); SearchAndContents (JStr "q")]
  = (Ok [],
     ([GenerateContent (QueryGenerationPrompt "q"); SearchAndContents (JStr "q")]
      ++ [SearchAndContents (JStr "comprehensive analysis of q")])%list)
  /\ batch_summarize world_late_failure (demo_config 3) "q"
       [(JStr "a", "u1", "c1"); (JStr "a", "u2", "c2")]
       [GenerateContent (QueryGenerationPrompt "q"); SearchAndContents (JStr "a")]
     = (Ok [ JDict [("url", JStr "u1"); ("relevance_score", JInt 9);
                    ("is_relevant", JBool true); ("summary", JStr "good");
                    ("key_insights", JList [JStr "k"])] ],
        [ GenerateContent (QueryGenerationPrompt "q");
          SearchAndContents (JStr "a");
          GenerateContent (SummarizerPrompt "q" (JStr "a") "u1" "c1");
          GenerateContent (SummarizerPrompt "q" (JStr "a") "u2" "c2") ])
  /\ (exists produced,
         batch_summarize world_late_failure (demo_config 3) "q"
           [(JStr "a", "u1", "c1"); (JStr "a", "u2", "c2")]
           [GenerateContent (QueryGenerationPrompt "q");
            SearchAndContents (JStr "a")]
         = (Ok produced,
            ([GenerateContent (QueryGenerationPrompt "q");
              SearchAndContents (JStr "a")]
             ++ map (summarizer_request (demo_config 3) "q")
                    [(JStr "a", "u1", "c1"); (JStr "a", "u2", "c2")])%list)
         /\ forall v,
              In v produced
              <-> exists i t p text,
                    nth_error [(JStr "a", "u1", "c1"); (JStr "a", "u2", "c2")] i
                    = Some t
                    /\ summarizer_request (demo_config 3) "q" t
                       = GenerateContent p
                    /\ generate_content world_late_failure
                         (List.length
                            [GenerateContent (QueryGenerationPrompt "q");
                             SearchAndContents (JStr "a")] + i) p
                       = Some text
                    /\ json_loads world_late_failure text = Some v
                    /\ is_dict v = true)
  /\ research world_late_expansion_failure (demo_config 3) [] "q" []
     = (Raise ModelError,
        ([ GenerateContent (QueryGenerationPrompt "q");
           SearchAndContents (JStr "a");
           GenerateContent (SynthesisPrompt "q" []) ]
         ++ [GenerateContent (QueryGenerationPrompt "q")])%list)
  /\ research world_late_failure (demo_config 3) [] "q" []
     = (Raise ModelError,
        ([ GenerateContent (QueryGenerationPrompt "q");
           SearchAndContents (JStr "a");
           GenerateContent (SummarizerPrompt "q" (JStr "a") "u1" "c1");
           GenerateContent (SummarizerPrompt "q" (JStr "a") "u2" "c2");
           GenerateContent
             (SynthesisPrompt "q"
                [ JDict [("url", JStr "u1"); ("relevance_score", JInt 9);
                         ("is_relevant", JBool true); ("summary", JStr "good");
                         ("key_insights", JList [JStr "k"])] ]);
           GenerateContent (QueryGenerationPrompt "q");
           SearchAndContents (JStr "a") ]
         ++ [GenerateContent (SynthesisPrompt "q" [])])%list)
  /\ research world_final_down (demo_config 1) [] "q" []
     = (Raise ModelError,
        ([ GenerateContent (QueryGenerationPrompt "q");
           SearchAndContents (JStr "a");
           GenerateContent (SynthesisPrompt "q" []) ]
         ++ [GenerateContent
               (SynthesisPrompt "q"
                  (all_summaries
                     [ {| iteration_number := 1;
                          queries := JList [JStr "a"];
                          search_results := [];
                          summaries := [];
                          synthesis_result := synthesis_value 8 false |} ]))])%list)
  /\ run_research world_4_8
       {| google_api_key := ""; exa_api_key := "e-key";
          max_urls_per_query := 20; min_relevance_score := 6;
          max_research_iterations := 3; content_snippet_length := 2000 |}
       "q" []
     = (Raise ValueError, []).
Proof.
  split; [| split; [| split; [| split; [| split; [| split]]]]].
  - apply (proj1 (transient_failure_policy world_unparseable (demo_config 1))).
    reflexivity.
  - reflexivity.
  - apply (proj1 (proj2 (transient_failure_policy
                           world_late_failure (demo_config 3)))).
  - eapply (proj1 (proj2 (proj2 (transient_failure_policy
                                   world_late_expansion_failure (demo_config 3))))
                  [] "q" [] 1%nat).
    + eapply reaches_next;
        [apply reaches_start | vm_compute; reflexivity | vm_compute; reflexivity].
    + reflexivity.
    + reflexivity.
  - eapply (proj1 (proj2 (proj2 (proj2 (transient_failure_policy
                                          world_late_failure (demo_config 3)))))
                  [] "q" []
                  1%nat _
                  [ GenerateContent (QueryGenerationPrompt "q");
                    SearchAndContents (JStr "a");
                    GenerateContent (SummarizerPrompt "q" (JStr "a") "u1" "c1");
                    GenerateContent (SummarizerPrompt "q" (JStr "a") "u2" "c2");
                    GenerateContent
                      (SynthesisPrompt "q"
                         [ JDict [("url", JStr "u1"); ("relevance_score", JInt 9);
                                  ("is_relevant", JBool true);
                                  ("summary", JStr "good");
                                  ("key_insights", JList [JStr "k"])] ]) ]
                  (JList [JStr "a"]) [(JStr "a", [])]).
    + eapply reaches_next;
        [apply reaches_start | vm_compute; reflexivity | vm_compute; reflexivity].
    + reflexivity.
    + eexists _, _, _. repeat split; vm_compute; reflexivity.
    + reflexivity.
  - eapply (proj1 (proj2 (proj2 (proj2 (proj2 (transient_failure_policy
                                                 world_final_down (demo_config 1))))))
                  [] "q" []).
    + vm_compute. reflexivity.
    + reflexivity.
  - apply (proj2 (proj2 (proj2 (proj2 (proj2
             (transient_failure_policy world_4_8 _)))))).
    left. reflexivity.
Defined.
